(** * TriggerClient: the endpoint handler of the trigger SDK

    A shallow embedding of [packages/trigger-sdk/src/triggerClient.ts].

    Conventions of the embedding.
    - A JavaScript value of type [any] is a tree of type [any] below; numbers
      are kept as integers, the handler never computes with them.
    - An object used as a dictionary ([Record<string, V>]) is an insertion
      ordered association list with unique keys, module [Rec]. Only own
      properties are modelled: keys are assumed not to name a member of
      [Object.prototype].
    - An [async] function is a computation in the monad [M]: it either returns
      a value (the promise resolves) or throws (the promise rejects), and it
      leaves a trace of the registry reads, log lines, schema checks and calls
      into code outside the class that it performed, in program order.
    - Embedded: the constructor with [buildEndpointUrl], [handleRequest] with
      [authorized], [listen], [#preprocessRun], [#executeJob], the two context
      builders and [#handleHttpSourceRequest], and the registrations [attach],
      [attachJobToDynamicTrigger], [attachSource], [attachDynamicTrigger] and
      [attachDynamicSchedule], and [apiKey]. The methods that only forward to
      the API client are left out.
    - Objects of classes declared outside the file (Job, DynamicTrigger,
      ExternalSource, EventSpecification) are records of the members the file
      uses; what the imported schemas and the backend client compute is taken
      as a parameter, classes [Internal] and [Collaborators]. *)

From Stdlib Require Import String List ZArith NArith Bool Ascii Permutation.
Import ListNotations.
Open Scope string_scope.
Open Scope list_scope.

Set Implicit Arguments.

(** ** JavaScript values *)

#[warnings="-register-all"]
Inductive any : Type :=
| undefined
| null
| JBool (b : bool)
| JNumber (n : Z)
| JString (s : string)
| JArray (items : list any)
| JObject (fields : list (string * any)).

(** [v ?? d] *)
Definition nullish_coalesce (v d : any) : any :=
  match v with
  | undefined | null => d
  | _ => v
  end.

(** [o ?? d] on a property that is either absent or holds a value. *)
Definition or_else {A : Type} (o : option A) (d : A) : A :=
  match o with
  | Some a => a
  | None => d
  end.

(** Reading an optional property yields [undefined] when it is absent. *)
Definition opt_any (o : option any) : any := or_else o undefined.

Definition opt_string (o : option string) : any :=
  match o with
  | Some s => JString s
  | None => undefined
  end.

(** Truthiness of a [string | undefined]. *)
Definition truthy (o : option string) : bool :=
  match o with
  | Some s => negb (String.eqb s "")
  | None => false
  end.

(** ** Objects used as dictionaries *)

Module Rec.

Definition t (V : Type) : Type := list (string * V).

Definition empty {V : Type} : t V := [].

(** [m[k]] *)
Fixpoint get {V : Type} (m : t V) (k : string) : option V :=
  match m with
  | [] => None
  | (k', v) :: m' => if String.eqb k k' then Some v else get m' k
  end.

(** [m[k] = v]: an existing key keeps its position. *)
Fixpoint set {V : Type} (m : t V) (k : string) (v : V) : t V :=
  match m with
  | [] => [(k, v)]
  | (k', v') :: m' =>
      if String.eqb k k' then (k', v) :: m' else (k', v') :: set m' k v
  end.

Definition is_digit (c : ascii) : bool :=
  let n := nat_of_ascii c in (48 <=? n)%nat && (n <=? 57)%nat.

Fixpoint digits (s : string) (acc : N) : option N :=
  match s with
  | EmptyString => Some acc
  | String c s' =>
      if is_digit c
      then digits s' (10 * acc + N.of_nat (nat_of_ascii c - 48))%N
      else None
  end.

(** A key is an array index when it is the canonical decimal form of an
    integer below 2^32 - 1. *)
Definition array_index (k : string) : option N :=
  match k with
  | EmptyString => None
  | String c rest =>
      if Ascii.eqb c "0"%char && negb (String.eqb rest "")
      then None
      else match digits k 0%N with
           | Some n => if (n <? 4294967295)%N then Some n else None
           | None => None
           end
  end.

Fixpoint insert_index {V : Type} (n : N) (kv : string * V)
    (l : list (N * (string * V))) : list (N * (string * V)) :=
  match l with
  | [] => [(n, kv)]
  | (n', kv') :: l' =>
      if (n <? n')%N then (n, kv) :: l else (n', kv') :: insert_index n kv l'
  end.

Fixpoint index_entries {V : Type} (m : t V) : list (N * (string * V)) :=
  match m with
  | [] => []
  | (k, v) :: m' =>
      match array_index k with
      | Some n => insert_index n (k, v) (index_entries m')
      | None => index_entries m'
      end
  end.

Definition named_entries {V : Type} (m : t V) : t V :=
  filter (fun kv => match array_index (fst kv) with
                    | Some _ => false
                    | None => true
                    end) m.

(** [Object.entries(m)]: array indices in ascending order, then the other
    keys in insertion order. *)
Definition entries {V : Type} (m : t V) : list (string * V) :=
  map snd (index_entries m) ++ named_entries m.

(** [Object.values(m)] *)
Definition values {V : Type} (m : t V) : list V := map snd (entries m).

End Rec.

(** [{...base, ...extra}] with the properties of [base] written first. *)
Definition spread (base extra : Rec.t any) : Rec.t any :=
  fold_left (fun m kv => Rec.set m (fst kv) (snd kv)) (Rec.entries extra) base.

(** ** [Set] of strings, in insertion order *)

Definition Set_has (s : list string) (x : string) : bool :=
  existsb (String.eqb x) s.

Definition Set_add (s : list string) (x : string) : list string :=
  if Set_has s x then s else s ++ [x].

(** [Array.from(new Set(l))] *)
Definition new_Set (l : list string) : list string := fold_left Set_add l [].

(** ** Computations: results, thrown values and the trace *)

(** What a [throw] carries. [ResumeWithTask] is the class of [./io]; an
    [Error] instance is kept by its message. *)
Inductive Thrown : Type :=
| ResumeWithTask (task : any)
| JsError (message : string)
| Raised (value : any).

Inductive Outcome (A : Type) : Type :=
| Returns (a : A)
| Throws (e : Thrown).

Arguments Returns {A} a.
Arguments Throws {A} e.

Inductive Registry : Type :=
| Jobs
| Sources
| HttpSourceHandlers
| DynamicTriggers
| JobMetadataByDynamicTriggers
| Schedules.

Inductive Schema : Type :=
| SInitializeTriggerBody
| SRunJobBody
| SPreprocessRunBody
| SHttpSourceRequestHeaders
| SErrorWithStack
| SErrorWithMessage.

Inductive Callee : Type :=
| CregisterEndpoint
| CparsePayload
| Crun
| CrunElements
| CregisteredTriggerForParams
| Chandle.

Inductive Event : Type :=
| Debug (message : string)
| Lookup (r : Registry) (key : string)
| Enumerate (r : Registry)
| SafeParse (s : Schema)
| Call (f : Callee).

Record M (A : Type) : Type := mkM { trace : list Event; outcome : Outcome A }.

Arguments mkM {A} trace outcome.

Definition ret {A : Type} (a : A) : M A := mkM [] (Returns a).

Definition bind {A B : Type} (m : M A) (k : A -> M B) : M B :=
  match outcome m with
  | Returns a => mkM (trace m ++ trace (k a)) (outcome (k a))
  | Throws e => mkM (trace m) (Throws e)
  end.

(** [try { m } catch (error) { h error }] *)
Definition try_catch {A : Type} (m : M A) (h : Thrown -> M A) : M A :=
  match outcome m with
  | Returns a => m
  | Throws e => mkM (trace m ++ trace (h e)) (outcome (h e))
  end.

Definition emit (ev : Event) : M unit := mkM [ev] (Returns tt).

(** A call into code outside the class, with the result it gives. *)
Definition call {A : Type} (f : Callee) (r : Outcome A) : M A := mkM [Call f] r.

(** A dictionary read [registry[key]]. *)
Definition lookup {V : Type} (r : Registry) (m : Rec.t V) (k : string)
  : M (option V) :=
  mkM [Lookup r k] (Returns (Rec.get m k)).

(** [Object.values(registry)] *)
Definition values_of {V : Type} (r : Registry) (m : Rec.t V) : M (list V) :=
  mkM [Enumerate r] (Returns (Rec.values m)).

(** [Object.entries(registry)] *)
Definition entries_of {V : Type} (r : Registry) (m : Rec.t V)
  : M (list (string * V)) :=
  mkM [Enumerate r] (Returns (Rec.entries m)).

(** [schema.safeParse(input)] *)
Definition safeParse {I A : Type} (s : Schema) (parse : I -> option A) (i : I)
  : M (option A) :=
  mkM [SafeParse s] (Returns (parse i)).

Declare Scope js_scope.
Delimit Scope js_scope with js.

Notation "x <- m ;; k" := (bind m (fun x => k))
  (at level 100, m at next level, right associativity) : js_scope.
Notation "m ;;; k" := (bind m (fun _ => k))
  (at level 100, right associativity) : js_scope.

(** [xs.map(f)] for an [f] that leaves a trace. *)
Fixpoint mapM {A B : Type} (f : A -> M B) (xs : list A) : M (list B) :=
  match xs with
  | [] => ret []
  | x :: xs' => bind (f x) (fun y => bind (mapM f xs') (fun ys => ret (y :: ys)))
  end.

Definition touches_registry (ev : Event) : bool :=
  match ev with
  | Lookup _ _ | Enumerate _ => true
  | _ => false
  end.

(** ** Data model *)

(** [NormalizedRequest] and [NormalizedResponse] of the internal package. *)
Record NormalizedRequest : Type := {
  headers : Rec.t string;
  method : string;
  body : any
}.

Record NormalizedResponse : Type := {
  status : Z;
  response_body : any
}.

Definition encode_response (r : NormalizedResponse) : any :=
  JObject [("status", JNumber (status r)); ("body", response_body r)].

Definition message_body (m : string) : any := JObject [("message", JString m)].

(** Modelled from the spec: the schema output types of
    [@trigger.dev/internal] are not among the sources. A run request has
    "event (id, name, context, timestamp, payload), organization,
    environment, job (id/version reference), run (id), account, connections,
    and tasks"; a preprocess request has the first six of them. *)
Record ApiEventLog : Type := {
  event_id : string;
  event_name : string;
  event_context : any;
  event_timestamp : any;
  payload : any
}.

Record JobRef : Type := { ref_id : string; ref_version : string }.

Record RunRef : Type := { run_id : string }.

(** Output of [RunJobBodySchema]. *)
Record RunJobBody : Type := {
  event : ApiEventLog;
  organization : any;
  environment : any;
  job : JobRef;
  run_ : RunRef;
  account : any;
  connections : any;
  tasks : list any
}.

(** Output of [PreprocessRunBodySchema]. *)
Record PreprocessRunBody : Type := {
  pre_event : ApiEventLog;
  pre_organization : any;
  pre_environment : any;
  pre_job : JobRef;
  pre_run : RunRef;
  pre_account : any
}.

(** Output of [InitializeTriggerBodySchema]. *)
Record InitializeTriggerBody : Type := { init_id : string; init_params : any }.

(** Modelled from the spec: output of [HttpSourceRequestHeadersSchema], one
    member per webhook delivery header [x-ts-...]. *)
Record HttpSourceRequestHeaders : Type := {
  x_ts_http_url : string;
  x_ts_http_method : string;
  x_ts_http_headers : any;
  x_ts_key : string;
  x_ts_dynamic_id : option string;
  x_ts_secret : string;
  x_ts_params : any;
  x_ts_data : any
}.

(** Modelled from the spec: outputs of [ErrorWithStackSchema] ("structured
    with message + stack") and of [ErrorWithMessage] ("message only"). *)
Record ErrorWithStack : Type := { es_message : string; es_stack : string }.

Record ErrorWithMessageData : Type := { em_message : string }.

Inductive ExecutionError : Type :=
| WithStack (e : ErrorWithStack)
| WithMessage (e : ErrorWithMessageData).

Definition encode_error (e : ExecutionError) : any :=
  match e with
  | WithStack d =>
      JObject [("message", JString (es_message d)); ("stack", JString (es_stack d))]
  | WithMessage d => JObject [("message", JString (em_message d))]
  end.

(** [TriggerContext]; [TriggerPreprocessContext] has the same members. *)
Record ContextEvent : Type := {
  ce_id : string;
  ce_name : string;
  ce_context : any;
  ce_timestamp : any
}.

Record TriggerContext : Type := {
  ctx_event : ContextEvent;
  ctx_organization : any;
  ctx_environment : any;
  ctx_job : JobRef;
  ctx_run : RunRef;
  ctx_account : any
}.

Definition TriggerPreprocessContext : Type := TriggerContext.

Record Integration : Type := { integration_id : string; usesLocalAuth : bool }.

(** Modelled from the spec: class [IO] of [./io] is not among the sources; the
    object is "seeded with the run id, the task cache from the request, the
    external API client, and the context". The API client, the logger and
    the back reference to the client carry no data of their own here. *)
Record IO : Type := {
  io_id : string;
  cachedTasks : list any;
  io_context : TriggerContext
}.

(** Modelled from the spec: [createIOWithIntegrations] of
    [./ioWithIntegrations] is not among the sources; it "decorates the IO
    object with integration-specific helpers declared by the job". *)
Record IOWithIntegrations : Type := {
  io : IO;
  io_connections : any;
  io_integrations : Rec.t Integration
}.

Definition createIOWithIntegrations (i : IO) (conns : any)
    (ints : Rec.t Integration) : IOWithIntegrations :=
  {| io := i; io_connections := conns; io_integrations := ints |}.

Record EventSpecification : Type := {
  name : string;
  title : string;
  source_ : string;
  icon : string;
  parsePayload : any -> Outcome any;
  runElements : option (any -> Outcome (list any))
}.

Record HandleTriggerSource : Type := {
  hts_key : string;
  hts_dynamicId : option string;
  hts_secret : string;
  hts_params : any;
  hts_data : any
}.

Record HttpSourceRequest : Type := {
  hsr_url : string;
  hsr_method : string;
  hsr_headers : any;
  rawBody : any
}.

Record HandlerResult : Type := {
  hr_events : list any;
  hr_response : option NormalizedResponse
}.

Definition HttpSourceHandler : Type :=
  HandleTriggerSource -> HttpSourceRequest -> Outcome (option HandlerResult).

Record ExternalSource : Type := {
  channel : string;
  source_version : string;
  integration : Integration;
  register :
    any -> any -> IOWithIntegrations -> TriggerContext ->
    Outcome (option (Rec.t any));
  handle : HttpSourceHandler
}.

Record DynamicTrigger : Type := {
  dt_id : string;
  dt_event : EventSpecification;
  dt_source : ExternalSource;
  registeredTriggerForParams : any -> Outcome any
}.

Inductive Trigger : Type :=
| EventTrigger (ev : EventSpecification) (filter : any)
| Dynamic (d : DynamicTrigger).

(** [trigger.event] *)
Definition trigger_event (t : Trigger) : EventSpecification :=
  match t with
  | EventTrigger ev _ => ev
  | Dynamic d => dt_event d
  end.

Record Queue : Type := { queue_name : string; maxConcurrent : Z }.

(** A job is the options object it was made from. *)
Record Job : Type := {
  id : string;
  job_name : string;
  version : string;
  enabled : bool;
  trigger : Trigger;
  integrations : Rec.t Integration;
  queue : option Queue;
  startPosition : option string;
  run : any -> IOWithIntegrations -> TriggerContext -> Outcome any;
  __internal : bool
}.

Record SourceMetadata : Type := {
  sm_channel : string;
  sm_key : string;
  sm_params : any;
  sm_events : list string;
  sm_clientId : option string
}.

Definition encode_source (s : SourceMetadata) : any :=
  JObject [("channel", JString (sm_channel s));
           ("key", JString (sm_key s));
           ("params", sm_params s);
           ("events", JArray (map JString (sm_events s)));
           ("clientId", opt_string (sm_clientId s))].

Definition encode_ref (r : JobRef) : any :=
  JObject [("id", JString (ref_id r)); ("version", JString (ref_version r))].

Record TriggerClientOptions : Type := {
  option_apiKey : option string;
  apiUrl : option string;
  option_endpoint : option string;
  path : option string;
  logLevel : option string
}.

(** The variables of [process.env] that the file reads. *)
Record ProcessEnv : Type := {
  TRIGGER_API_KEY : option string;
  TRIGGER_ENDPOINT : option string;
  TRIGGER_HOST : option string;
  HOST : option string;
  HOSTNAME : option string;
  NOW_URL : option string;
  VERCEL_URL : option string
}.

(** The private fields of the class and its two public ones. *)
Record TriggerClient : Type := {
  options : TriggerClientOptions;
  registeredJobs : Rec.t Job;
  registeredSources : Rec.t SourceMetadata;
  registeredHttpSourceHandlers : Rec.t HttpSourceHandler;
  registeredDynamicTriggers : Rec.t DynamicTrigger;
  jobMetadataByDynamicTriggers : Rec.t (list JobRef);
  registeredSchedules : Rec.t (list JobRef);
  client_name : string;
  endpoint : string
}.

(** What the file imports from [@trigger.dev/internal]. *)
Class Internal : Type := {
  REGISTER_SOURCE_EVENT : string;
  RegisterSourceEventSchema_parse : any -> Outcome any;
  InitializeTriggerBodySchema : any -> option InitializeTriggerBody;
  RunJobBodySchema : any -> option RunJobBody;
  PreprocessRunBodySchema : any -> option PreprocessRunBody;
  HttpSourceRequestHeadersSchema : Rec.t string -> option HttpSourceRequestHeaders;
  ErrorWithStackSchema : Thrown -> option ErrorWithStack;
  ErrorWithMessage : Thrown -> option ErrorWithMessageData
}.

(** Methods of the classes [ApiClient], [IO] and [Job]. *)
Class Collaborators : Type := {
  registerEndpoint : string -> string -> Outcome unit;
  updateSource : IOWithIntegrations -> string -> any -> Outcome any;
  toJSON : Job -> any
}.

(** ** The class *)

Section Client.

Context {internal : Internal} {collaborators : Collaborators}.

Local Open Scope js_scope.

Definition registerSourceEvent : EventSpecification :=
  {| name := REGISTER_SOURCE_EVENT;
     title := "Register Source";
     source_ := "internal";
     icon := "register-source";
     parsePayload := RegisterSourceEventSchema_parse;
     runElements := None |}.

(** [a ?? b] on two optional strings. *)
Definition coalesce (a b : option string) : option string :=
  match a with
  | Some _ => a
  | None => b
  end.

(** [a === b] on two values of type [string | undefined]. *)
Definition strict_eq (a b : option string) : bool :=
  match a, b with
  | Some x, Some y => String.eqb x y
  | None, None => true
  | _, _ => false
  end.

Definition endpoint_error : Thrown :=
  JsError "Could not determine the endpoint for the trigger client. Please set the TRIGGER_ENDPOINT environment variable.".

Definition buildEndpointUrl (env : ProcessEnv) (path : option string)
  : Outcome string :=
  let endpoint := TRIGGER_ENDPOINT env in
  if truthy endpoint then Returns (or_else endpoint "" ++ or_else path "")%string
  else
    let host :=
      coalesce (coalesce (coalesce (coalesce (TRIGGER_HOST env) (HOST env))
                                   (HOSTNAME env))
                         (NOW_URL env))
               (VERCEL_URL env) in
    if truthy host then Returns ("https://" ++ or_else host "" ++ or_else path "")%string
    else Throws endpoint_error.

(** [new TriggerClient(name, options)] *)
Definition constructor (env : ProcessEnv) (name : string)
    (options : TriggerClientOptions) : Outcome TriggerClient :=
  let resolved :=
    match option_endpoint options with
    | Some e => Returns e
    | None => buildEndpointUrl env (path options)
    end in
  match resolved with
  | Returns e =>
      Returns {| options := options;
                 registeredJobs := Rec.empty;
                 registeredSources := Rec.empty;
                 registeredHttpSourceHandlers := Rec.empty;
                 registeredDynamicTriggers := Rec.empty;
                 jobMetadataByDynamicTriggers := Rec.empty;
                 registeredSchedules := Rec.empty;
                 client_name := name;
                 endpoint := e |}
  | Throws x => Throws x
  end.

Definition authorized (env : ProcessEnv) (c : TriggerClient)
    (apiKey : option string) : bool :=
  let localApiKey := coalesce (option_apiKey (options c)) (TRIGGER_API_KEY env) in
  if negb (truthy localApiKey) then false
  else strict_eq apiKey localApiKey.

Definition listen (c : TriggerClient) : M unit :=
  call CregisterEndpoint (registerEndpoint (endpoint c) (client_name c)).

Definition context_event (e : ApiEventLog) : ContextEvent :=
  {| ce_id := event_id e;
     ce_name := event_name e;
     ce_context := event_context e;
     ce_timestamp := event_timestamp e |}.

Definition createRunContext (execution : RunJobBody) : TriggerContext :=
  {| ctx_event := context_event (event execution);
     ctx_organization := organization execution;
     ctx_environment := environment execution;
     ctx_job := job execution;
     ctx_run := run_ execution;
     ctx_account := account execution |}.

Definition createPreprocessRunContext (body : PreprocessRunBody)
  : TriggerPreprocessContext :=
  {| ctx_event := context_event (pre_event body);
     ctx_organization := pre_organization body;
     ctx_environment := pre_environment body;
     ctx_job := pre_job body;
     ctx_run := pre_run body;
     ctx_account := pre_account body |}.

Record PreprocessResult : Type := { abort : bool; elements : list any }.

Definition preprocessRun (c : TriggerClient) (body : PreprocessRunBody)
    (j : Job) : M PreprocessResult :=
  let context := createPreprocessRunContext body in
  let spec := trigger_event (trigger j) in
  parsedPayload <-
    call CparsePayload
      (parsePayload spec (nullish_coalesce (payload (pre_event body)) (JObject [])));;
  elements <-
    match runElements spec with
    | Some f => call CrunElements (f parsedPayload)
    | None => ret []
    end;;
  ret {| abort := false; elements := elements |}.

(** What [#executeJob] returns: [completed] and, when present, [output],
    [task] and [error]. *)
Record ExecuteResult : Type := {
  completed : bool;
  output : option any;
  task : option any;
  error : option ExecutionError
}.

Definition unknown_error : ExecutionError :=
  WithMessage {| em_message := "Unknown error" |}.

(** The [catch] block of [#executeJob]. *)
Definition classify (error : Thrown) : M ExecuteResult :=
  match error with
  | ResumeWithTask t =>
      ret {| completed := false; output := None; task := Some t; error := None |}
  | _ =>
      errorWithStack <- safeParse SErrorWithStack ErrorWithStackSchema error;;
      match errorWithStack with
      | Some data =>
          ret {| completed := true; output := None; task := None;
                 error := Some (WithStack data) |}
      | None =>
          errorWithMessage <- safeParse SErrorWithMessage ErrorWithMessage error;;
          match errorWithMessage with
          | Some data =>
              ret {| completed := true; output := None; task := None;
                     error := Some (WithMessage data) |}
          | None =>
              ret {| completed := true; output := None; task := None;
                     error := Some unknown_error |}
          end
      end
  end.

(** The [try] block of [#executeJob]: the payload is parsed, then the run
    function of the job is called with it. *)
Definition run_job (body : RunJobBody) (j : Job) (i : IOWithIntegrations)
    (context : TriggerContext) : M any :=
  parsed <-
    call CparsePayload
      (parsePayload (trigger_event (trigger j))
         (nullish_coalesce (payload (event body)) (JObject [])));;
  call Crun (run j parsed i context).

(** The [io] handed to the run function: [new IO] on the run id, the cached
    tasks and the context, decorated with the integrations of the job. *)
Definition job_io (body : RunJobBody) (j : Job) : IOWithIntegrations :=
  let i :=
    {| io_id := run_id (run_ body); cachedTasks := tasks body;
       io_context := createRunContext body |} in
  createIOWithIntegrations i (connections body) (integrations j).

Definition executeJob (c : TriggerClient) (body : RunJobBody) (j : Job)
  : M ExecuteResult :=
  emit (Debug "executing job");;;
  let context := createRunContext body in
  let ioWithConnections := job_io body j in
  try_catch
    (output <- run_job body j ioWithConnections context;;
     ret {| completed := true; output := Some output; task := None;
            error := None |})
    classify.

Definition respond (code : Z) (b : any) : NormalizedResponse :=
  {| status := code; response_body := b |}.

(** [{ status: 200, body: { ok: true } }] *)
Definition ok_response : NormalizedResponse :=
  respond 200 (JObject [("ok", JBool true)]).

Record HttpSourceResult : Type := {
  hs_response : NormalizedResponse;
  hs_events : list any
}.

Definition acknowledge : HttpSourceResult :=
  {| hs_response := ok_response; hs_events := [] |}.

(** The tail shared by the two branches of [#handleHttpSourceRequest]. *)
Definition source_results (results : option HandlerResult) : HttpSourceResult :=
  match results with
  | None => acknowledge
  | Some r =>
      {| hs_response := or_else (hr_response r) ok_response;
         hs_events := hr_events r |}
  end.

Definition handleHttpSourceRequest (c : TriggerClient)
    (source : HandleTriggerSource) (sourceRequest : HttpSourceRequest)
  : M HttpSourceResult :=
  emit (Debug "Handling HTTP source request");;;
  if truthy (hts_dynamicId source) then
    dynamicTrigger <-
      lookup DynamicTriggers (registeredDynamicTriggers c)
        (or_else (hts_dynamicId source) "");;
    match dynamicTrigger with
    | None =>
        emit (Debug "No dynamic trigger registered for HTTP source");;;
        ret acknowledge
    | Some d =>
        results <- call Chandle (handle (dt_source d) source sourceRequest);;
        ret (source_results results)
    end
  else
    handler <-
      lookup HttpSourceHandlers (registeredHttpSourceHandlers c) (hts_key source);;
    match handler with
    | None =>
        emit (Debug "No handler registered for HTTP source");;;
        ret acknowledge
    | Some h =>
        results <- call Chandle (h source sourceRequest);;
        ret (source_results results)
    end.

Definition header (request : NormalizedRequest) (h : string) : option string :=
  Rec.get (headers request) h.

Definition action_is (request : NormalizedRequest) (a : string) : bool :=
  strict_eq (header request "x-trigger-action") (Some a).

Definition method_not_allowed : NormalizedResponse :=
  respond 405 (message_body "Method not allowed").

Definition job_not_found : NormalizedResponse :=
  respond 404 (message_body "Job not found").

(** The body of the listing answered to [GET]. *)
Definition endpoint_data (c : TriggerClient) : M any :=
  jobs <- values_of Jobs (registeredJobs c);;
  sources <- values_of Sources (registeredSources c);;
  triggers <- values_of DynamicTriggers (registeredDynamicTriggers c);;
  dynamicTriggers <-
    mapM (fun t =>
            refs <-
              lookup JobMetadataByDynamicTriggers
                (jobMetadataByDynamicTriggers c) (dt_id t);;
            ret (JObject [("id", JString (dt_id t));
                          ("jobs", JArray (map encode_ref (or_else refs [])))]))
         triggers;;
  schedules <- entries_of Schedules (registeredSchedules c);;
  ret (JObject
         [("jobs", JArray (map toJSON jobs));
          ("sources", JArray (map encode_source sources));
          ("dynamicTriggers", JArray dynamicTriggers);
          ("dynamicSchedules",
           JArray (map (fun e =>
                          JObject [("id", JString (fst e));
                                   ("jobs", JArray (map encode_ref (snd e)))])
                       schedules))]).

Definition handle_get (c : TriggerClient) (request : NormalizedRequest)
  : M NormalizedResponse :=
  if action_is request "PING" then ret (respond 200 (message_body "PONG"))
  else if truthy (header request "x-trigger-job-id") then
    found <-
      lookup Jobs (registeredJobs c)
        (or_else (header request "x-trigger-job-id") "");;
    match found with
    | None => ret job_not_found
    | Some j => ret (respond 200 (toJSON j))
    end
  else
    data <- endpoint_data c;;
    ret (respond 200 data).

Definition initialize_trigger (c : TriggerClient) (request : NormalizedRequest)
  : M NormalizedResponse :=
  parsed <-
    safeParse SInitializeTriggerBody InitializeTriggerBodySchema (body request);;
  match parsed with
  | None => ret (respond 400 (message_body "Invalid trigger body"))
  | Some data =>
      dynamicTrigger <-
        lookup DynamicTriggers (registeredDynamicTriggers c) (init_id data);;
      match dynamicTrigger with
      | None => ret (respond 404 (message_body "Dynamic trigger not found"))
      | Some d =>
          registered <-
            call CregisteredTriggerForParams
              (registeredTriggerForParams d (init_params data));;
          ret (respond 200 registered)
      end
  end.

Definition execute_job (c : TriggerClient) (request : NormalizedRequest)
  : M NormalizedResponse :=
  execution <- safeParse SRunJobBody RunJobBodySchema (body request);;
  match execution with
  | None => ret (respond 400 (message_body "Invalid execution"))
  | Some data =>
      found <- lookup Jobs (registeredJobs c) (ref_id (job data));;
      match found with
      | None => ret job_not_found
      | Some j =>
          results <- executeJob c data j;;
          match error results with
          | Some e => ret (respond 500 (encode_error e))
          | None =>
              ret (respond 200
                     (JObject
                        [("completed", JBool (completed results));
                         ("output", opt_any (output results));
                         ("executionId", JString (run_id (run_ data)));
                         ("task", opt_any (task results))]))
          end
      end
  end.

Definition preprocess_run (c : TriggerClient) (request : NormalizedRequest)
  : M NormalizedResponse :=
  parsed <- safeParse SPreprocessRunBody PreprocessRunBodySchema (body request);;
  match parsed with
  | None => ret (respond 400 (message_body "Invalid body"))
  | Some data =>
      found <- lookup Jobs (registeredJobs c) (ref_id (pre_job data));;
      match found with
      | None => ret job_not_found
      | Some j =>
          results <- preprocessRun c data j;;
          ret (respond 200
                 (JObject [("abort", JBool (abort results));
                           ("elements", JArray (elements results))]))
      end
  end.

Definition deliver_http_source_request (c : TriggerClient)
    (request : NormalizedRequest) : M NormalizedResponse :=
  parsed <-
    safeParse SHttpSourceRequestHeaders HttpSourceRequestHeadersSchema
      (headers request);;
  match parsed with
  | None => ret (respond 400 (message_body "Invalid headers"))
  | Some data =>
      let sourceRequest :=
        {| hsr_url := x_ts_http_url data;
           hsr_method := x_ts_http_method data;
           hsr_headers := x_ts_http_headers data;
           rawBody := body request |} in
      let source :=
        {| hts_key := x_ts_key data;
           hts_dynamicId := x_ts_dynamic_id data;
           hts_secret := x_ts_secret data;
           hts_params := x_ts_params data;
           hts_data := x_ts_data data |} in
      r <- handleHttpSourceRequest c source sourceRequest;;
      ret (respond 200
             (JObject [("events", JArray (hs_events r));
                       ("response", encode_response (hs_response r))]))
  end.

(** The [switch] on the action header of a [POST]; an action outside the
    five cases leaves the [switch] and reaches the final [return]. *)
Definition handle_post (c : TriggerClient) (request : NormalizedRequest)
  : M NormalizedResponse :=
  if action_is request "INITIALIZE" then
    listen c;;;
    ret (respond 200 (message_body "Initialized"))
  else if action_is request "INITIALIZE_TRIGGER" then initialize_trigger c request
  else if action_is request "EXECUTE_JOB" then execute_job c request
  else if action_is request "PREPROCESS_RUN" then preprocess_run c request
  else if action_is request "DELIVER_HTTP_SOURCE_REQUEST" then
    deliver_http_source_request c request
  else ret method_not_allowed.

Definition handleRequest (env : ProcessEnv) (c : TriggerClient)
    (request : NormalizedRequest) : M NormalizedResponse :=
  emit (Debug "handling request");;;
  let apiKey := header request "x-trigger-api-key" in
  if negb (authorized env c apiKey) then
    ret (respond 401 (message_body "Unauthorized"))
  else if String.eqb (method request) "GET" then handle_get c request
  else if String.eqb (method request) "POST" then handle_post c request
  else ret method_not_allowed.

(** ** Registration *)

Definition set_registeredJobs (c : TriggerClient) (m : Rec.t Job)
  : TriggerClient :=
  {| options := options c;
     registeredJobs := m;
     registeredSources := registeredSources c;
     registeredHttpSourceHandlers := registeredHttpSourceHandlers c;
     registeredDynamicTriggers := registeredDynamicTriggers c;
     jobMetadataByDynamicTriggers := jobMetadataByDynamicTriggers c;
     registeredSchedules := registeredSchedules c;
     client_name := client_name c;
     endpoint := endpoint c |}.

Definition set_registeredSources (c : TriggerClient)
    (m : Rec.t SourceMetadata) : TriggerClient :=
  {| options := options c;
     registeredJobs := registeredJobs c;
     registeredSources := m;
     registeredHttpSourceHandlers := registeredHttpSourceHandlers c;
     registeredDynamicTriggers := registeredDynamicTriggers c;
     jobMetadataByDynamicTriggers := jobMetadataByDynamicTriggers c;
     registeredSchedules := registeredSchedules c;
     client_name := client_name c;
     endpoint := endpoint c |}.

Definition set_registeredHttpSourceHandlers (c : TriggerClient)
    (m : Rec.t HttpSourceHandler) : TriggerClient :=
  {| options := options c;
     registeredJobs := registeredJobs c;
     registeredSources := registeredSources c;
     registeredHttpSourceHandlers := m;
     registeredDynamicTriggers := registeredDynamicTriggers c;
     jobMetadataByDynamicTriggers := jobMetadataByDynamicTriggers c;
     registeredSchedules := registeredSchedules c;
     client_name := client_name c;
     endpoint := endpoint c |}.

Definition set_jobMetadataByDynamicTriggers (c : TriggerClient)
    (m : Rec.t (list JobRef)) : TriggerClient :=
  {| options := options c;
     registeredJobs := registeredJobs c;
     registeredSources := registeredSources c;
     registeredHttpSourceHandlers := registeredHttpSourceHandlers c;
     registeredDynamicTriggers := registeredDynamicTriggers c;
     jobMetadataByDynamicTriggers := m;
     registeredSchedules := registeredSchedules c;
     client_name := client_name c;
     endpoint := endpoint c |}.

Definition job_reference (j : Job) : JobRef :=
  {| ref_id := id j; ref_version := version j |}.

Definition attachJobToDynamicTrigger (c : TriggerClient) (j : Job)
    (t : DynamicTrigger) : TriggerClient :=
  let jobs := or_else (Rec.get (jobMetadataByDynamicTriggers c) (dt_id t)) [] in
  let jobs := jobs ++ [job_reference j] in
  set_jobMetadataByDynamicTriggers c
    (Rec.set (jobMetadataByDynamicTriggers c) (dt_id t) jobs).

(** Modelled from the spec: [attachToJob] of the trigger classes in
    [./triggers] is not among the sources. The trigger performs its
    "trigger-specific attachment": an event trigger registers nothing more,
    a dynamic trigger has the job appended to its job-reference list. *)
Definition attachToJob (t : Trigger) (c : TriggerClient) (j : Job)
  : TriggerClient :=
  match t with
  | EventTrigger _ _ => c
  | Dynamic d => attachJobToDynamicTrigger c j d
  end.

Definition attach (c : TriggerClient) (j : Job) : TriggerClient :=
  if negb (enabled j) then c
  else
    let c := set_registeredJobs c (Rec.set (registeredJobs c) (id j) j) in
    attachToJob (trigger j) c j.

(** Modelled from the spec: the constructor of class [Job] in [./job] is not
    among the sources. A job made with [new Job(client, options)] is
    "synthesized and attached": it is handed to [attach] of the client. *)
Definition new_Job (c : TriggerClient) (j : Job) : TriggerClient := attach c j.

Record AttachSourceOptions : Type := {
  key : string;
  source : ExternalSource;
  attached_event : EventSpecification;
  params : any
}.

(** The run function of the job that [attachSource] makes. *)
Definition register_source_run (o : AttachSourceOptions)
    (ev : any) (i : IOWithIntegrations) (ctx : TriggerContext) : Outcome any :=
  match register (source o) (params o) ev i ctx with
  | Throws e => Throws e
  | Returns None => Returns undefined
  | Returns (Some updates) =>
      updateSource i "update-source"
        (JObject (spread [("key", JString (key o))] updates))
  end.

Definition register_source_job (o : AttachSourceOptions) : Job :=
  {| id := key o;
     job_name := key o;
     version := source_version (source o);
     enabled := true;
     trigger :=
       EventTrigger registerSourceEvent
         (JObject [("source", JObject [("key", JArray [JString (key o)])])]);
     integrations := [("integration", integration (source o))];
     queue := Some {| queue_name := key o; maxConcurrent := 1 |};
     startPosition := Some "initial";
     run := register_source_run o;
     __internal := true |}.

Definition fresh_source (o : AttachSourceOptions) : SourceMetadata :=
  {| sm_channel := channel (source o);
     sm_key := key o;
     sm_params := params o;
     sm_events := [];
     sm_clientId :=
       if negb (usesLocalAuth (integration (source o)))
       then Some (integration_id (integration (source o)))
       else None |}.

Definition set_events (s : SourceMetadata) (evs : list string) : SourceMetadata :=
  {| sm_channel := sm_channel s;
     sm_key := sm_key s;
     sm_params := sm_params s;
     sm_events := evs;
     sm_clientId := sm_clientId s |}.

Definition attachSource (c : TriggerClient) (o : AttachSourceOptions)
  : TriggerClient :=
  let c :=
    set_registeredHttpSourceHandlers c
      (Rec.set (registeredHttpSourceHandlers c) (key o)
         (fun s r => handle (source o) s r)) in
  let registeredSource :=
    match Rec.get (registeredSources c) (key o) with
    | Some found => found
    | None => fresh_source o
    end in
  let registeredSource :=
    set_events registeredSource
      (new_Set (sm_events registeredSource ++ [name (attached_event o)])) in
  let c :=
    set_registeredSources c
      (Rec.set (registeredSources c) (key o) registeredSource) in
  new_Job c (register_source_job o).

End Client.

(** ** The other registrations *)

Section Further.

Context {internal : Internal} {collaborators : Collaborators}.

(** [apiKey()] *)
Definition apiKey (env : ProcessEnv) (c : TriggerClient) : option string :=
  coalesce (option_apiKey (options c)) (TRIGGER_API_KEY env).

Definition set_registeredDynamicTriggers (c : TriggerClient)
    (m : Rec.t DynamicTrigger) : TriggerClient :=
  {| options := options c;
     registeredJobs := registeredJobs c;
     registeredSources := registeredSources c;
     registeredHttpSourceHandlers := registeredHttpSourceHandlers c;
     registeredDynamicTriggers := m;
     jobMetadataByDynamicTriggers := jobMetadataByDynamicTriggers c;
     registeredSchedules := registeredSchedules c;
     client_name := client_name c;
     endpoint := endpoint c |}.



(** [v.k] for the member names read below ([source], [params], [key]), which
    neither arrays nor the wrappers of primitive values define. Reading a
    member of [undefined] or [null] throws a [TypeError], kept by the message
    that Node gives it. *)
Definition member (v : any) (k : string) : Outcome any :=
  match v with
  | undefined =>
      Throws (JsError ("Cannot read properties of undefined (reading '" ++ k ++ "')"))
  | null =>
      Throws (JsError ("Cannot read properties of null (reading '" ++ k ++ "')"))
  | JObject fields => Returns (or_else (Rec.get fields k) undefined)
  | _ => Returns undefined
  end.

(** The run function of the job that [attachDynamicTrigger] makes. *)
Definition register_dynamic_trigger_run (t : DynamicTrigger)
    (ev : any) (i : IOWithIntegrations) (ctx : TriggerContext) : Outcome any :=
  match member ev "source" with
  | Throws e => Throws e
  | Returns src =>
      match member src "params" with
      | Throws e => Throws e
      | Returns ps =>
          match register (dt_source t) ps ev i ctx with
          | Throws e => Throws e
          | Returns None => Returns undefined
          | Returns (Some updates) =>
              match member src "key" with
              | Throws e => Throws e
              | Returns k =>
                  updateSource i "update-source"
                    (JObject (spread [("key", k)] updates))
              end
          end
      end
  end.

Definition register_dynamic_trigger_job (t : DynamicTrigger) : Job :=
  {| id := "register-dynamic-trigger-" ++ dt_id t;
     job_name := "Register dynamic trigger " ++ dt_id t;
     version := source_version (dt_source t);
     enabled := true;
     trigger :=
       EventTrigger registerSourceEvent
         (JObject [("dynamicTriggerId", JArray [JString (dt_id t)])]);
     integrations := [("integration", integration (dt_source t))];
     queue := None;
     startPosition := None;
     run := register_dynamic_trigger_run t;
     __internal := true |}.

Definition attachDynamicTrigger (c : TriggerClient) (t : DynamicTrigger)
  : TriggerClient :=
  let c :=
    set_registeredDynamicTriggers c
      (Rec.set (registeredDynamicTriggers c) (dt_id t) t) in
  new_Job c (register_dynamic_trigger_job t).

End Further.

(** ** Sample configurations

    Concrete schemas, collaborators, clients and requests on which the
    definitions above are evaluated. *)

Module Sample.

Definition an_event (p : any) : ApiEventLog :=
  {| event_id := "evt_1";
     event_name := "order.created";
     event_context := JObject [];
     event_timestamp := JString "2023-05-01T10:00:00.000Z";
     payload := p |}.

Definition a_run (j : string) (p : any) : RunJobBody :=
  {| event := an_event p;
     organization := JObject [("id", JString "org_1")];
     environment := JObject [("slug", JString "dev")];
     job := {| ref_id := j; ref_version := "1.0.0" |};
     run_ := {| run_id := "run_1" |};
     account := undefined;
     connections := JObject [];
     tasks := [] |}.

(** A body [{ job: <id>, payload: <p> }] is a valid run and a valid
    preprocess body; nothing else is. *)
Definition run_body (b : any) : option RunJobBody :=
  match b with
  | JObject [("job", JString j); ("payload", p)] => Some (a_run j p)
  | _ => None
  end.

Definition a_preprocess (j : string) (p : any) : PreprocessRunBody :=
  {| pre_event := an_event p;
     pre_organization := JObject [("id", JString "org_1")];
     pre_environment := JObject [("slug", JString "dev")];
     pre_job := {| ref_id := j; ref_version := "1.0.0" |};
     pre_run := {| run_id := "run_1" |};
     pre_account := undefined |}.

Definition preprocess_body (b : any) : option PreprocessRunBody :=
  match b with
  | JObject [("job", JString j); ("payload", p)] => Some (a_preprocess j p)
  | _ => None
  end.

Definition trigger_body (b : any) : option InitializeTriggerBody :=
  match b with
  | JObject [("id", JString i); ("params", p)] =>
      Some {| init_id := i; init_params := p |}
  | _ => None
  end.

Definition source_headers (h : Rec.t string) : option HttpSourceRequestHeaders :=
  match Rec.get h "x-ts-key", Rec.get h "x-ts-secret" with
  | Some k, Some s =>
      Some {| x_ts_http_url := or_else (Rec.get h "x-ts-http-url") "";
              x_ts_http_method := or_else (Rec.get h "x-ts-http-method") "POST";
              x_ts_http_headers := JObject [];
              x_ts_key := k;
              x_ts_dynamic_id := Rec.get h "x-ts-dynamic-id";
              x_ts_secret := s;
              x_ts_params := undefined;
              x_ts_data := undefined |}
  | _, _ => None
  end.

Definition error_with_stack (e : Thrown) : option ErrorWithStack :=
  match e with
  | JsError m => Some {| es_message := m; es_stack := "Error: " ++ m |}
  | Raised (JObject [("message", JString m); ("stack", JString s)]) =>
      Some {| es_message := m; es_stack := s |}
  | _ => None
  end.

Definition error_with_message (e : Thrown) : option ErrorWithMessageData :=
  match e with
  | JsError m => Some {| em_message := m |}
  | Raised (JObject (("message", JString m) :: _)) => Some {| em_message := m |}
  | _ => None
  end.

Definition schemas : Internal :=
  {| REGISTER_SOURCE_EVENT := "dev.trigger.source.register";
     RegisterSourceEventSchema_parse := fun v => Returns v;
     InitializeTriggerBodySchema := trigger_body;
     RunJobBodySchema := run_body;
     PreprocessRunBodySchema := preprocess_body;
     HttpSourceRequestHeadersSchema := source_headers;
     ErrorWithStackSchema := error_with_stack;
     ErrorWithMessage := error_with_message |}.

(** Schemas that accept no input at all. *)
Definition strict_schemas : Internal :=
  {| REGISTER_SOURCE_EVENT := "dev.trigger.source.register";
     RegisterSourceEventSchema_parse := fun _ => Throws (JsError "invalid");
     InitializeTriggerBodySchema := fun _ => None;
     RunJobBodySchema := fun _ => None;
     PreprocessRunBodySchema := fun _ => None;
     HttpSourceRequestHeadersSchema := fun _ => None;
     ErrorWithStackSchema := fun _ => None;
     ErrorWithMessage := fun _ => None |}.

Definition backend : Collaborators :=
  {| registerEndpoint := fun _ _ => Returns tt;
     updateSource := fun _ _ _ => Returns undefined;
     toJSON := fun j => JObject [("id", JString (id j));
                                 ("version", JString (version j))] |}.

Definition no_env : ProcessEnv :=
  {| TRIGGER_API_KEY := None; TRIGGER_ENDPOINT := None; TRIGGER_HOST := None;
     HOST := None; HOSTNAME := None; NOW_URL := None; VERCEL_URL := None |}.

Definition no_options : TriggerClientOptions :=
  {| option_apiKey := None; apiUrl := None; option_endpoint := None;
     path := None; logLevel := None |}.

Definition keyed_options : TriggerClientOptions :=
  {| option_apiKey := Some "tr_dev_secret"; apiUrl := None;
     option_endpoint := Some "https://app.example/api/trigger";
     path := None; logLevel := None |}.

Definition order_event (parse : any -> Outcome any) : EventSpecification :=
  {| name := "order.created"; title := "Order created"; source_ := "shop";
     icon := "cart"; parsePayload := parse; runElements := None |}.

Definition order_event_named (n : string) : EventSpecification :=
  {| name := n; title := n; source_ := "shop"; icon := "cart";
     parsePayload := fun v => Returns v; runElements := None |}.

Definition a_job (i : string) (parse : any -> Outcome any)
    (body : any -> IOWithIntegrations -> TriggerContext -> Outcome any) : Job :=
  {| id := i; job_name := i; version := "1.0.0"; enabled := true;
     trigger := EventTrigger (order_event parse) (JObject []);
     integrations := []; queue := None; startPosition := None;
     run := body; __internal := false |}.

(** Waits on a task that is not cached yet. *)
Definition waiting_job : Job :=
  a_job "wait" (fun v => Returns v)
    (fun _ _ _ => Throws (ResumeWithTask (JObject [("id", JString "task_1")]))).

(** Rejects every payload. *)
Definition picky_job : Job :=
  a_job "picky" (fun _ => Throws (JsError "payload is not an order"))
    (fun _ _ _ => Returns (JString "done")).

Definition a_client (jobs : Rec.t Job) : TriggerClient :=
  {| options := keyed_options;
     registeredJobs := jobs;
     registeredSources := Rec.empty;
     registeredHttpSourceHandlers := Rec.empty;
     registeredDynamicTriggers := Rec.empty;
     jobMetadataByDynamicTriggers := Rec.empty;
     registeredSchedules := Rec.empty;
     client_name := "shop";
     endpoint := "https://app.example/api/trigger" |}.

Definition client : TriggerClient :=
  a_client [("wait", waiting_job); ("picky", picky_job)].

Definition post (apiKey action : string) (b : any) : NormalizedRequest :=
  {| headers := [("x-trigger-api-key", apiKey); ("x-trigger-action", action)];
     method := "POST";
     body := b |}.

Definition an_order : any := JObject [("total", JNumber 12)].

Definition run_of (j : string) : any :=
  JObject [("job", JString j); ("payload", an_order)].

(** A webhook delivery for the source "github" whose body is not JSON. *)
Definition a_delivery : NormalizedRequest :=
  {| headers := [("x-trigger-api-key", "tr_dev_secret");
                 ("x-trigger-action", "DELIVER_HTTP_SOURCE_REQUEST");
                 ("x-ts-key", "github");
                 ("x-ts-secret", "s3cr3t")];
     method := "POST";
     body := JString "oops" |}.

Definition webhooks : ExternalSource :=
  {| channel := "HTTP";
     source_version := "0.1.0";
     integration := {| integration_id := "github"; usesLocalAuth := false |};
     register := fun _ _ _ _ => Returns None;
     handle := fun _ _ => Returns None |}.

(** The same feed behind a newer handler. *)
Definition webhooks_v2 : ExternalSource :=
  {| channel := "HTTP";
     source_version := "0.2.0";
     integration := {| integration_id := "github-local"; usesLocalAuth := true |};
     register := fun _ _ _ _ => Returns None;
     handle := fun _ _ =>
       Returns (Some {| hr_events := [JString "push"]; hr_response := None |}) |}.

Definition a_source (k n : string) (s : ExternalSource) (p : any)
  : AttachSourceOptions :=
  {| key := k; source := s; attached_event := order_event_named n; params := p |}.

Definition a_trigger : DynamicTrigger :=
  {| dt_id := "on-issue";
     dt_event := order_event_named "issue.opened";
     dt_source := webhooks;
     registeredTriggerForParams := fun p => Returns p |}.

(** A job that completes at once. *)
Definition done_job : Job :=
  a_job "greet" (fun v => Returns v) (fun _ _ _ => Returns (JString "done")).

Definition busy_client : TriggerClient :=
  a_client [("wait", waiting_job); ("picky", picky_job); ("greet", done_job)].

Definition a_get (extra : Rec.t string) : NormalizedRequest :=
  {| headers := ("x-trigger-api-key", "tr_dev_secret") :: extra;
     method := "GET";
     body := undefined |}.

(** A webhook delivery for the dynamic trigger "on-issue". *)
Definition a_dynamic_delivery : NormalizedRequest :=
  {| headers := [("x-trigger-api-key", "tr_dev_secret");
                 ("x-trigger-action", "DELIVER_HTTP_SOURCE_REQUEST");
                 ("x-ts-key", "github");
                 ("x-ts-dynamic-id", "on-issue");
                 ("x-ts-secret", "s3cr3t")];
     method := "POST";
     body := JString "{}" |}.

Definition a_trigger_body : any :=
  JObject [("id", JString "on-issue");
           ("params", JObject [("repo", JString "acme/shop")])].

(** TRIGGER_HOST is set but empty, HOST names a host. *)
Definition empty_host_env : ProcessEnv :=
  {| TRIGGER_API_KEY := None; TRIGGER_ENDPOINT := None;
     TRIGGER_HOST := Some ""; HOST := Some "app.example"; HOSTNAME := None;
     NOW_URL := None; VERCEL_URL := None |}.

End Sample.

(** Setters used to state that a context does not depend on the payload. *)

Definition set_payload (e : ApiEventLog) (p : any) : ApiEventLog :=
  {| event_id := event_id e;
     event_name := event_name e;
     event_context := event_context e;
     event_timestamp := event_timestamp e;
     payload := p |}.

Definition run_with_payload (b : RunJobBody) (p : any) : RunJobBody :=
  {| event := set_payload (event b) p;
     organization := organization b;
     environment := environment b;
     job := job b;
     run_ := run_ b;
     account := account b;
     connections := connections b;
     tasks := tasks b |}.

Definition preprocess_with_payload (b : PreprocessRunBody) (p : any)
  : PreprocessRunBody :=
  {| pre_event := set_payload (pre_event b) p;
     pre_organization := pre_organization b;
     pre_environment := pre_environment b;
     pre_job := pre_job b;
     pre_run := pre_run b;
     pre_account := pre_account b |}.



(** The entry that [attachSource] starts from. *)
Definition entry_before (c : TriggerClient) (o : AttachSourceOptions)
  : SourceMetadata :=
  or_else (Rec.get (registeredSources c) (key o)) (fresh_source o).


Definition is_call (ev : Event) : bool :=
  match ev with
  | Call _ => true
  | _ => false
  end.


(** The [source] and [sourceRequest] that a delivery is turned into. *)
Definition delivered_source (data : HttpSourceRequestHeaders)
  : HandleTriggerSource :=
  {| hts_key := x_ts_key data;
     hts_dynamicId := x_ts_dynamic_id data;
     hts_secret := x_ts_secret data;
     hts_params := x_ts_params data;
     hts_data := x_ts_data data |}.

Definition delivered_request (data : HttpSourceRequestHeaders) (raw : any)
  : HttpSourceRequest :=
  {| hsr_url := x_ts_http_url data;
     hsr_method := x_ts_http_method data;
     hsr_headers := x_ts_http_headers data;
     rawBody := raw |}.

(** The answer to a delivery whose handler gave [results]. *)
Definition delivery_response (results : option HandlerResult)
  : NormalizedResponse :=
  respond 200
    (JObject [("events", JArray (hs_events (source_results results)));
              ("response", encode_response (hs_response (source_results results)))]).

(** [{ status: 200, body: { events: [], response: { status: 200, body: { ok: true } } } }] *)
Definition acknowledgement : NormalizedResponse :=
  respond 200
    (JObject [("events", JArray []);
              ("response",
               JObject [("status", JNumber 200);
                        ("body", JObject [("ok", JBool true)])])]).

(** The branch of [handleRequest] that a request takes after the opening log
    line. *)
Section Routing.

Context {internal : Internal} {collaborators : Collaborators}.

Definition post_actions : list string :=
  ["INITIALIZE"; "INITIALIZE_TRIGGER"; "EXECUTE_JOB"; "PREPROCESS_RUN";
   "DELIVER_HTTP_SOURCE_REQUEST"].

Inductive Route (env : ProcessEnv) (c : TriggerClient)
    (request : NormalizedRequest) : M NormalizedResponse -> Prop :=
| route_unauthorized :
    authorized env c (header request "x-trigger-api-key") = false ->
    Route env c request (ret (respond 401 (message_body "Unauthorized")))
| route_get :
    authorized env c (header request "x-trigger-api-key") = true ->
    method request = "GET" ->
    Route env c request (handle_get c request)
| route_initialize :
    authorized env c (header request "x-trigger-api-key") = true ->
    method request = "POST" ->
    header request "x-trigger-action" = Some "INITIALIZE" ->
    Route env c request
      (bind (listen c) (fun _ => ret (respond 200 (message_body "Initialized"))))
| route_initialize_trigger :
    authorized env c (header request "x-trigger-api-key") = true ->
    method request = "POST" ->
    header request "x-trigger-action" = Some "INITIALIZE_TRIGGER" ->
    Route env c request (initialize_trigger c request)
| route_execute_job :
    authorized env c (header request "x-trigger-api-key") = true ->
    method request = "POST" ->
    header request "x-trigger-action" = Some "EXECUTE_JOB" ->
    Route env c request (execute_job c request)
| route_preprocess_run :
    authorized env c (header request "x-trigger-api-key") = true ->
    method request = "POST" ->
    header request "x-trigger-action" = Some "PREPROCESS_RUN" ->
    Route env c request (preprocess_run c request)
| route_deliver :
    authorized env c (header request "x-trigger-api-key") = true ->
    method request = "POST" ->
    header request "x-trigger-action" = Some "DELIVER_HTTP_SOURCE_REQUEST" ->
    Route env c request (deliver_http_source_request c request)
| route_not_allowed :
    authorized env c (header request "x-trigger-api-key") = true ->
    method request <> "GET" ->
    (method request <> "POST" \/
     forall a, header request "x-trigger-action" = Some a -> ~ In a post_actions) ->
    Route env c request (ret method_not_allowed).

End Routing.

(** The first of a list of variables that is set. *)
Fixpoint first_set (vars : list (option string)) : option string :=
  match vars with
  | [] => None
  | Some v :: _ => Some v
  | None :: rest => first_set rest
  end.

(** The host variables in the order in which [buildEndpointUrl] reads them. *)
Definition host_variables (env : ProcessEnv) : list (option string) :=
  [TRIGGER_HOST env; HOST env; HOSTNAME env; NOW_URL env; VERCEL_URL env].

(** The key that requests are checked against. *)
Definition configured_key (env : ProcessEnv) (c : TriggerClient) : option string :=
  coalesce (option_apiKey (options c)) (TRIGGER_API_KEY env).

(** * Properties *)

(** ** Dictionaries and sets *)

Lemma get_set_same (V : Type) (m : Rec.t V) (k : string) (v : V) :
  Rec.get (Rec.set m k v) k = Some v.
Proof.
  induction m as [|[k' v'] m IH]; simpl.
  - now rewrite String.eqb_refl.
  - destruct (String.eqb k k') eqn:E; simpl; rewrite E; auto.
Qed.


Lemma Set_has_In (s : list string) (x : string) :
  Set_has s x = true <-> In x s.
Proof.
  unfold Set_has. rewrite existsb_exists. split.
  - intros [y [Hy E]]. apply String.eqb_eq in E. now subst.
  - intros H. exists x. split; auto. apply String.eqb_refl.
Qed.

Lemma Set_add_In (s : list string) (x y : string) :
  In y (Set_add s x) <-> In y s \/ y = x.
Proof.
  unfold Set_add. destruct (Set_has s x) eqn:E.
  - apply Set_has_In in E. split; [auto|]. intros [H|H]; subst; auto.
  - rewrite in_app_iff. simpl. intuition.
Qed.


Lemma fold_Set_add_In (l acc : list string) (y : string) :
  In y (fold_left Set_add l acc) <-> In y acc \/ In y l.
Proof.
  revert acc. induction l as [|x l IH]; intros acc; simpl.
  - intuition.
  - rewrite IH, Set_add_In. intuition.
Qed.



Lemma new_Set_In (l : list string) (y : string) : In y (new_Set l) <-> In y l.
Proof. unfold new_Set. rewrite fold_Set_add_In. simpl. intuition. Qed.





(** ** Request handling *)

Section Requests.

Context {internal : Internal} {collaborators : Collaborators}.

Ltac run_monad := unfold bind, emit, ret, safeParse, lookup, call; simpl.

Lemma strict_eq_true (a b : option string) : strict_eq a b = true <-> a = b.
Proof.
  destruct a as [x|], b as [y|]; simpl; split; intros H;
    try discriminate; auto.
  - apply String.eqb_eq in H. now subst.
  - injection H as ->. apply String.eqb_refl.
Qed.

Lemma authorized_spec (env : ProcessEnv) (c : TriggerClient)
    (apiKey : option string) :
  authorized env c apiKey = true <->
  exists k, configured_key env c = Some k /\ k <> "" /\ apiKey = Some k.
Proof.
  unfold authorized, configured_key.
  destruct (coalesce (option_apiKey (options c)) (TRIGGER_API_KEY env))
    as [k|]; simpl.
  - destruct (String.eqb k "") eqn:E; simpl.
    + apply String.eqb_eq in E. split; [discriminate|].
      intros [k' [H [Hne _]]]. injection H as <-. contradiction.
    + rewrite strict_eq_true. split.
      * intros ->. exists k. repeat split; auto.
        intros ->. discriminate.
      * intros [k' [H [_ ->]]]. congruence.
  - split; [discriminate|]. intros [k [H _]]. discriminate.
Qed.

(** The two dispatchers are entered only by an authorized request. *)
Lemma handleRequest_authorized (env : ProcessEnv) (c : TriggerClient)
    (request : NormalizedRequest) :
  authorized env c (header request "x-trigger-api-key") = true ->
  method request = "POST" ->
  handleRequest env c request =
  bind (emit (Debug "handling request")) (fun _ => handle_post c request).
Proof.
  intros Ha Hm. unfold handleRequest. now rewrite Ha, Hm.
Qed.

Lemma handle_post_action (c : TriggerClient) (request : NormalizedRequest)
    (a : string) :
  header request "x-trigger-action" = Some a ->
  handle_post c request =
  if String.eqb a "INITIALIZE" then
    bind (listen c) (fun _ => ret (respond 200 (message_body "Initialized")))
  else if String.eqb a "INITIALIZE_TRIGGER" then initialize_trigger c request
  else if String.eqb a "EXECUTE_JOB" then execute_job c request
  else if String.eqb a "PREPROCESS_RUN" then preprocess_run c request
  else if String.eqb a "DELIVER_HTTP_SOURCE_REQUEST" then
    deliver_http_source_request c request
  else ret method_not_allowed.
Proof.
  intros H. unfold handle_post, action_is. rewrite H. reflexivity.
Qed.

(** C1. A request whose [x-trigger-api-key] header is missing or differs from
    the configured key, or that reaches a client with no configured key
    (neither the option nor the process-wide variable), is answered 401
    "Unauthorized"; nothing but the opening log line has happened by then,
    whatever the method, the action header and the body are. *)
Theorem unauthorized_request_is_401 (env : ProcessEnv) (c : TriggerClient)
    (request : NormalizedRequest) :
  configured_key env c = None \/
  header request "x-trigger-api-key" <> configured_key env c ->
  handleRequest env c request =
  mkM [Debug "handling request"]
      (Returns (respond 401 (message_body "Unauthorized"))).
Proof.
  intros H. unfold handleRequest.
  destruct (authorized env c (header request "x-trigger-api-key")) eqn:E.
  - apply authorized_spec in E. destruct E as [k [Hk [_ Hh]]].
    destruct H as [H|H]; congruence.
  - reflexivity.
Qed.

(** C2. An authorized POST with action EXECUTE_JOB whose body passes the
    schema and names a registered job, and whose run function (called on the
    parsed payload) throws the suspension signal with task [T], is answered
    200 with [completed: false] and [task: T]. *)
Theorem suspended_run_is_200 (env : ProcessEnv) (c : TriggerClient)
    (request : NormalizedRequest) (data : RunJobBody) (j : Job)
    (parsed T : any) :
  authorized env c (header request "x-trigger-api-key") = true ->
  method request = "POST" ->
  header request "x-trigger-action" = Some "EXECUTE_JOB" ->
  RunJobBodySchema (body request) = Some data ->
  Rec.get (registeredJobs c) (ref_id (job data)) = Some j ->
  parsePayload (trigger_event (trigger j))
    (nullish_coalesce (payload (event data)) (JObject [])) = Returns parsed ->
  run j parsed (job_io data j) (createRunContext data)
    = Throws (ResumeWithTask T) ->
  outcome (handleRequest env c request) =
  Returns (respond 200
             (JObject [("completed", JBool false);
                       ("output", undefined);
                       ("executionId", JString (run_id (run_ data)));
                       ("task", T)])).
Proof.
  intros Ha Hm Hact Hbody Hjob Hparse Hrun.
  rewrite (handleRequest_authorized _ _ _ Ha Hm).
  rewrite (handle_post_action _ _ Hact). simpl.
  unfold execute_job, executeJob, run_job, try_catch. run_monad.
  rewrite Hbody. simpl. rewrite Hjob. simpl.
  rewrite Hparse. simpl. rewrite Hrun. simpl. reflexivity.
Qed.

(** C3. The executor classifies the outcome of the guarded block (payload
    parsing followed by the run function) in a fixed order: a return value
    completes with that output; a suspension signal suspends with its task,
    whatever the error schemas say of it; otherwise a value matching the
    error-with-stack schema gives that error, whatever the error-with-message
    schema says; otherwise a value matching the error-with-message schema
    gives that error; otherwise the error is "Unknown error". *)
Theorem executeJob_classification (c : TriggerClient) (body : RunJobBody)
    (j : Job) :
  let attempt := outcome (run_job body j (job_io body j) (createRunContext body)) in
  (forall v, attempt = Returns v ->
     outcome (executeJob c body j) =
     Returns {| completed := true; output := Some v; task := None;
                error := None |})
  /\ (forall t, attempt = Throws (ResumeWithTask t) ->
     outcome (executeJob c body j) =
     Returns {| completed := false; output := None; task := Some t;
                error := None |})
  /\ (forall e d, attempt = Throws e -> (forall t, e <> ResumeWithTask t) ->
     ErrorWithStackSchema e = Some d ->
     outcome (executeJob c body j) =
     Returns {| completed := true; output := None; task := None;
                error := Some (WithStack d) |})
  /\ (forall e d, attempt = Throws e -> (forall t, e <> ResumeWithTask t) ->
     ErrorWithStackSchema e = None -> ErrorWithMessage e = Some d ->
     outcome (executeJob c body j) =
     Returns {| completed := true; output := None; task := None;
                error := Some (WithMessage d) |})
  /\ (forall e, attempt = Throws e -> (forall t, e <> ResumeWithTask t) ->
     ErrorWithStackSchema e = None -> ErrorWithMessage e = None ->
     outcome (executeJob c body j) =
     Returns {| completed := true; output := None; task := None;
                error := Some (WithMessage {| em_message := "Unknown error" |}) |}).
Proof.
  intros attempt. subst attempt.
  unfold executeJob, try_catch. run_monad.
  destruct (outcome (run_job body j (job_io body j) (createRunContext body)))
    as [v|e] eqn:E; simpl.
  - repeat split; intros; try discriminate. congruence.
  - repeat split.
    + intros; discriminate.
    + intros t H. injection H as ->. reflexivity.
    + intros e' d H Hn Hs. injection H as <-.
      destruct e as [t| |]; [now elim (Hn t)| |]; simpl; now rewrite Hs.
    + intros e' d H Hn Hs Hm. injection H as <-.
      destruct e as [t| |]; [now elim (Hn t)| |]; simpl; rewrite Hs; simpl;
        now rewrite Hm.
    + intros e' H Hn Hs Hm. injection H as <-.
      destruct e as [t| |]; [now elim (Hn t)| |]; simpl; rewrite Hs; simpl;
        now rewrite Hm.
Qed.

(** C4, as amended. On an authorized POST, INITIALIZE_TRIGGER, EXECUTE_JOB
    and PREPROCESS_RUN check the body against their schema and
    DELIVER_HTTP_SOURCE_REQUEST checks the headers against the header
    schema; a failed check is answered 400 and no registry has been read.
    INITIALIZE checks nothing: it answers 200 "Initialized" as soon as the
    endpoint is registered, whatever the body is. *)
Theorem invalid_input_is_400 (env : ProcessEnv) (c : TriggerClient)
    (request : NormalizedRequest) :
  authorized env c (header request "x-trigger-api-key") = true ->
  method request = "POST" ->
  let r := handleRequest env c request in
  (header request "x-trigger-action" = Some "INITIALIZE_TRIGGER" ->
   InitializeTriggerBodySchema (body request) = None ->
   outcome r = Returns (respond 400 (message_body "Invalid trigger body"))
   /\ existsb touches_registry (trace r) = false)
  /\ (header request "x-trigger-action" = Some "EXECUTE_JOB" ->
   RunJobBodySchema (body request) = None ->
   outcome r = Returns (respond 400 (message_body "Invalid execution"))
   /\ existsb touches_registry (trace r) = false)
  /\ (header request "x-trigger-action" = Some "PREPROCESS_RUN" ->
   PreprocessRunBodySchema (body request) = None ->
   outcome r = Returns (respond 400 (message_body "Invalid body"))
   /\ existsb touches_registry (trace r) = false)
  /\ (header request "x-trigger-action" = Some "DELIVER_HTTP_SOURCE_REQUEST" ->
   HttpSourceRequestHeadersSchema (headers request) = None ->
   outcome r = Returns (respond 400 (message_body "Invalid headers"))
   /\ existsb touches_registry (trace r) = false)
  /\ (header request "x-trigger-action" = Some "INITIALIZE" ->
   outcome r =
   match registerEndpoint (endpoint c) (client_name c) with
   | Returns _ => Returns (respond 200 (message_body "Initialized"))
   | Throws e => Throws e
   end
   /\ existsb touches_registry (trace r) = false).
Proof.
  intros Ha Hm r. subst r.
  rewrite (handleRequest_authorized _ _ _ Ha Hm).
  repeat match goal with |- _ /\ _ => split end; intros Hact;
    rewrite (handle_post_action _ _ Hact); simpl;
    try (intros Hbad;
         unfold initialize_trigger, execute_job, preprocess_run,
           deliver_http_source_request;
         run_monad; rewrite Hbad; split; reflexivity).
  unfold listen. run_monad.
  destruct (registerEndpoint (endpoint c) (client_name c)); split; reflexivity.
Qed.

Local Arguments executeJob : simpl never.




End Requests.

(** ** Registration *)

Section Registration.

Context {internal : Internal} {collaborators : Collaborators}.

Lemma attach_registeredSources (c : TriggerClient) (j : Job) :
  registeredSources (attach c j) = registeredSources c.
Proof.
  unfold attach. destruct (enabled j); simpl; auto.
  destruct (trigger j); reflexivity.
Qed.

Lemma attach_registeredHttpSourceHandlers (c : TriggerClient) (j : Job) :
  registeredHttpSourceHandlers (attach c j) = registeredHttpSourceHandlers c.
Proof.
  unfold attach. destruct (enabled j); simpl; auto.
  destruct (trigger j); reflexivity.
Qed.

Lemma attachSource_registeredSources (c : TriggerClient)
    (o : AttachSourceOptions) :
  registeredSources (attachSource c o) =
  Rec.set (registeredSources c) (key o)
    (set_events (entry_before c o)
       (new_Set (sm_events (entry_before c o) ++ [name (attached_event o)]))).
Proof.
  unfold attachSource, new_Job. rewrite attach_registeredSources. simpl.
  unfold entry_before. destruct (Rec.get (registeredSources c) (key o));
    reflexivity.
Qed.

Lemma attachSource_registeredHttpSourceHandlers (c : TriggerClient)
    (o : AttachSourceOptions) :
  registeredHttpSourceHandlers (attachSource c o) =
  Rec.set (registeredHttpSourceHandlers c) (key o) (handle (source o)).
Proof.
  unfold attachSource, new_Job. rewrite attach_registeredHttpSourceHandlers.
  reflexivity.
Qed.





(** C10. When [attachSource] is called under a key that is already
    registered, the entry keeps its channel, key, params and clientId; its
    event names are the old ones merged with the new name; and the handler of
    the key is the one of the latest call. *)
Theorem attachSource_again_keeps_registration (c : TriggerClient)
    (o : AttachSourceOptions) (e : SourceMetadata) :
  Rec.get (registeredSources c) (key o) = Some e ->
  exists e',
    Rec.get (registeredSources (attachSource c o)) (key o) = Some e'
    /\ sm_channel e' = sm_channel e
    /\ sm_key e' = sm_key e
    /\ sm_params e' = sm_params e
    /\ sm_clientId e' = sm_clientId e
    /\ sm_events e' = new_Set (sm_events e ++ [name (attached_event o)])
    /\ (forall n, In n (sm_events e') <->
                  In n (sm_events e) \/ n = name (attached_event o))
    /\ Rec.get (registeredHttpSourceHandlers (attachSource c o)) (key o)
       = Some (handle (source o)).
Proof.
  intros H. rewrite attachSource_registeredSources,
    attachSource_registeredHttpSourceHandlers, !get_set_same.
  unfold entry_before. rewrite H. simpl.
  eexists. split; [reflexivity|]. simpl.
  repeat match goal with |- _ /\ _ => split end; try reflexivity.
  intros n. rewrite new_Set_In, in_app_iff. simpl. intuition.
Qed.


(** C8. The context built for a run and the one built for a preprocess
    request do not depend on the raw payload: their event part is the id,
    name, context and timestamp of the event, beside organization,
    environment, job, run and account. The payload reaches user code on its
    own, parsed: the run function and [runElements] are applied to what
    [parsePayload] returned. *)
Theorem context_never_carries_payload (execution : RunJobBody)
    (body : PreprocessRunBody) (p : any) :
  createRunContext (run_with_payload execution p) = createRunContext execution
  /\ createPreprocessRunContext (preprocess_with_payload body p)
     = createPreprocessRunContext body
  /\ createRunContext execution =
     {| ctx_event :=
          {| ce_id := event_id (event execution);
             ce_name := event_name (event execution);
             ce_context := event_context (event execution);
             ce_timestamp := event_timestamp (event execution) |};
        ctx_organization := organization execution;
        ctx_environment := environment execution;
        ctx_job := job execution;
        ctx_run := run_ execution;
        ctx_account := account execution |}
  /\ createPreprocessRunContext body =
     {| ctx_event :=
          {| ce_id := event_id (pre_event body);
             ce_name := event_name (pre_event body);
             ce_context := event_context (pre_event body);
             ce_timestamp := event_timestamp (pre_event body) |};
        ctx_organization := pre_organization body;
        ctx_environment := pre_environment body;
        ctx_job := pre_job body;
        ctx_run := pre_run body;
        ctx_account := pre_account body |}
  /\ (forall j parsed,
        parsePayload (trigger_event (trigger j))
          (nullish_coalesce (payload (event execution)) (JObject []))
          = Returns parsed ->
        outcome (run_job execution j (job_io execution j)
                   (createRunContext execution))
        = run j parsed (job_io execution j) (createRunContext execution))
  /\ (forall c j parsed f,
        parsePayload (trigger_event (trigger j))
          (nullish_coalesce (payload (pre_event body)) (JObject []))
          = Returns parsed ->
        runElements (trigger_event (trigger j)) = Some f ->
        outcome (preprocessRun c body j) =
        match f parsed with
        | Returns els => Returns {| abort := false; elements := els |}
        | Throws e => Throws e
        end).
Proof.
  repeat match goal with |- _ /\ _ => split end; try reflexivity.
  - intros j parsed H. unfold run_job, bind, call. simpl. now rewrite H.
  - intros c j parsed f H Hf. unfold preprocessRun, bind, call, ret. simpl.
    rewrite H. simpl. rewrite Hf. simpl. destruct (f parsed); reflexivity.
Qed.

(** C6, as amended. With no [endpoint] option, no TRIGGER_ENDPOINT and none
    of the host variables, the configuration error is raised by the
    constructor, whatever the name and the other options are; [listen] only
    hands the endpoint resolved at construction to the backend. *)
Theorem unknown_endpoint_fails_at_construction (env : ProcessEnv)
    (name : string) (options : TriggerClientOptions) :
  option_endpoint options = None ->
  TRIGGER_ENDPOINT env = None ->
  TRIGGER_HOST env = None ->
  HOST env = None ->
  HOSTNAME env = None ->
  NOW_URL env = None ->
  VERCEL_URL env = None ->
  constructor env name options = Throws endpoint_error
  /\ (forall c, outcome (listen c)
                = registerEndpoint (endpoint c) (client_name c)).
Proof.
  intros He H1 H2 H3 H4 H5 H6. split; [|reflexivity].
  unfold constructor, buildEndpointUrl.
  now rewrite He, H1, H2, H3, H4, H5, H6.
Qed.

End Registration.

(** ** The properties on the sample configurations *)

Section Samples.

Import Sample.

Local Existing Instance schemas.
Local Existing Instance backend.

(** A guessed key is refused before the run body is even looked at. *)
Lemma unauthorized_request_is_401_sample :
  header (post "guess" "EXECUTE_JOB" (run_of "wait")) "x-trigger-api-key"
    <> configured_key no_env client
  /\ handleRequest no_env client (post "guess" "EXECUTE_JOB" (run_of "wait")) =
     mkM [Debug "handling request"]
         (Returns (respond 401 (message_body "Unauthorized"))).
Proof.
  assert (H : header (post "guess" "EXECUTE_JOB" (run_of "wait"))
                "x-trigger-api-key" <> configured_key no_env client)
    by (vm_compute; discriminate).
  split; [exact H|].
  apply unauthorized_request_is_401. right. exact H.
Defined.

(** The waiting job suspends on [task_1]. *)
Lemma suspended_run_is_200_sample :
  outcome (handleRequest no_env client
             (post "tr_dev_secret" "EXECUTE_JOB" (run_of "wait"))) =
  Returns (respond 200
             (JObject [("completed", JBool false);
                       ("output", undefined);
                       ("executionId", JString "run_1");
                       ("task", JObject [("id", JString "task_1")])])).
Proof.
  refine (suspended_run_is_200 no_env client
            (post "tr_dev_secret" "EXECUTE_JOB" (run_of "wait"))
            (data := a_run "wait" an_order)
            (j := waiting_job)
            (parsed := an_order)
            (T := JObject [("id", JString "task_1")])
            _ _ _ _ _ _ _); reflexivity.
Defined.

(** A run body that is not an object is refused with 400. *)
Lemma invalid_input_is_400_sample :
  let request := post "tr_dev_secret" "EXECUTE_JOB" (JString "oops") in
  authorized no_env client (header request "x-trigger-api-key") = true
  /\ method request = "POST"
  /\ RunJobBodySchema (body request) = None
  /\ outcome (handleRequest no_env client request)
     = Returns (respond 400 (message_body "Invalid execution"))
  /\ existsb touches_registry (trace (handleRequest no_env client request))
     = false.
Proof.
  intros request.
  split; [reflexivity|]. split; [reflexivity|]. split; [reflexivity|].
  exact (proj1 (proj2 (invalid_input_is_400 no_env client request
                         eq_refl eq_refl)) eq_refl eq_refl).
Defined.



(** A second registration of "github" with another source. *)
Lemma attachSource_again_keeps_registration_sample :
  let first := a_source "github" "push" webhooks (JString "acme/shop") in
  let second := a_source "github" "issue" webhooks_v2 (JString "acme/blog") in
  let c := attachSource (a_client []) first in
  let e := {| sm_channel := "HTTP"; sm_key := "github";
              sm_params := JString "acme/shop"; sm_events := ["push"];
              sm_clientId := Some "github" |} in
  Rec.get (registeredSources c) (key second) = Some e
  /\ exists e',
       Rec.get (registeredSources (attachSource c second)) (key second) = Some e'
       /\ sm_channel e' = sm_channel e
       /\ sm_key e' = sm_key e
       /\ sm_params e' = sm_params e
       /\ sm_clientId e' = sm_clientId e
       /\ sm_events e' = new_Set (sm_events e ++ [name (attached_event second)])
       /\ (forall n, In n (sm_events e') <->
                     In n (sm_events e) \/ n = name (attached_event second))
       /\ Rec.get (registeredHttpSourceHandlers (attachSource c second))
            (key second)
          = Some (handle (source second)).
Proof.
  intros first second c e.
  split; [reflexivity|].
  apply attachSource_again_keeps_registration. reflexivity.
Defined.

(** The waiting job suspends; the picky job fails with a stack. *)
Lemma executeJob_classification_sample :
  outcome (executeJob client (a_run "wait" an_order) waiting_job) =
    Returns {| completed := false; output := None;
               task := Some (JObject [("id", JString "task_1")]);
               error := None |}
  /\ outcome (executeJob client (a_run "picky" an_order) picky_job) =
    Returns {| completed := true; output := None; task := None;
               error :=
                 Some (WithStack
                         {| es_message := "payload is not an order";
                            es_stack := "Error: payload is not an order" |}) |}.
Proof.
  split.
  - destruct (executeJob_classification client (a_run "wait" an_order)
                waiting_job) as [_ [H _]].
    apply H. reflexivity.
  - destruct (executeJob_classification client (a_run "picky" an_order)
                picky_job) as [_ [_ [H _]]].
    apply (H (JsError "payload is not an order")); try reflexivity.
    intros t. discriminate.
Defined.


(** The context of a run of the waiting job, whatever the payload is. *)
Lemma context_never_carries_payload_sample :
  createRunContext (a_run "wait" (JString "another payload"))
  = createRunContext (a_run "wait" an_order).
Proof.
  exact (proj1 (context_never_carries_payload (a_run "wait" an_order)
                  (a_preprocess "wait" an_order)
                  (JString "another payload"))).
Defined.

(** Nothing names an endpoint or a host. *)
Lemma unknown_endpoint_fails_at_construction_sample :
  constructor no_env "shop" no_options = Throws endpoint_error
  /\ (forall c, outcome (listen c)
                = registerEndpoint (endpoint c) (client_name c)).
Proof.
  apply unknown_endpoint_fails_at_construction; reflexivity.
Defined.

(** C4 as stated fails. With schemas that accept nothing, so that the body
    fails whatever schema INITIALIZE could have, an authorized POST with
    action INITIALIZE is answered 200 and not 400. And an authorized
    DELIVER_HTTP_SOURCE_REQUEST whose body no body schema accepts, but whose
    headers are in order, is answered 200 as well: its body is not checked. *)
Lemma unchecked_bodies_are_answered_200 :
  let request := post "tr_dev_secret" "INITIALIZE" (JString "oops") in
  (@InitializeTriggerBodySchema strict_schemas (body request) = None
   /\ @RunJobBodySchema strict_schemas (body request) = None
   /\ @PreprocessRunBodySchema strict_schemas (body request) = None
   /\ @HttpSourceRequestHeadersSchema strict_schemas (headers request) = None
   /\ outcome (@handleRequest strict_schemas backend no_env client request)
      = Returns (respond 200 (message_body "Initialized")))
  /\ (InitializeTriggerBodySchema (body a_delivery) = None
      /\ RunJobBodySchema (body a_delivery) = None
      /\ PreprocessRunBodySchema (body a_delivery) = None
      /\ outcome (handleRequest no_env client a_delivery)
         = Returns (respond 200
                      (JObject [("events", JArray []);
                                ("response", encode_response ok_response)])))
  /\ status (respond 200 (message_body "Initialized")) <> 400%Z.
Proof.
  repeat split. discriminate.
Qed.

(** C6 as stated fails: the configuration error is raised while the client
    is constructed, before [listen] can be called. *)
Lemma endpoint_error_at_construction :
  constructor no_env "shop" no_options
  = Throws (JsError "Could not determine the endpoint for the trigger client. Please set the TRIGGER_ENDPOINT environment variable.").
Proof. reflexivity. Qed.


End Samples.

(** * Further properties *)

(** ** Enumeration of a dictionary *)




(** ** Traces *)

Lemma in_trace_bind (A B : Type) (m : M A) (k : A -> M B) (ev : Event) :
  In ev (trace (bind m k)) ->
  In ev (trace m) \/ exists a, outcome m = Returns a /\ In ev (trace (k a)).
Proof.
  unfold bind. destruct (outcome m) as [a|e] eqn:E; simpl.
  - rewrite in_app_iff. intros [H|H]; eauto.
  - auto.
Qed.

Lemma outcome_bind (A B : Type) (m : M A) (k : A -> M B) :
  outcome (bind m k) =
  match outcome m with
  | Returns a => outcome (k a)
  | Throws e => Throws e
  end.
Proof. unfold bind. destruct (outcome m); reflexivity. Qed.

(** Mapping a function that only reads a registry. *)
Lemma mapM_reads (A B : Type) (f : A -> M B) (g : A -> B) (xs : list A) :
  (forall x, outcome (f x) = Returns (g x)) ->
  (forall x ev, In ev (trace (f x)) -> is_call ev = false) ->
  outcome (mapM f xs) = Returns (map g xs)
  /\ forall ev, In ev (trace (mapM f xs)) -> is_call ev = false.
Proof.
  intros Hout Htr. induction xs as [|x xs [IHo IHt]]; simpl.
  - split; [reflexivity|intros ev []].
  - split.
    + rewrite outcome_bind, Hout, outcome_bind, IHo. reflexivity.
    + intros ev H. apply in_trace_bind in H. destruct H as [H|[y [_ H]]].
      * eapply Htr, H.
      * apply in_trace_bind in H. destruct H as [H|[ys [_ []]]].
        now apply IHt.
Qed.

(** ** The branches of the handler *)

Section Branches.

Context {internal : Internal} {collaborators : Collaborators}.

Local Arguments executeJob : simpl never.

Ltac break_match :=
  match goal with
  | H : context [match ?x with _ => _ end] |- _ => destruct x eqn:?
  | |- context [match ?x with _ => _ end] => destruct x eqn:?
  end.

Ltac open_monad :=
  unfold bind, emit, ret, safeParse, lookup, call, try_catch in *; cbn in *.

Lemma eqb_neq_false (a b : string) : a <> b -> String.eqb a b = false.
Proof. intros H. now apply String.eqb_neq. Qed.

(** Every request takes exactly one of the branches of [Route]. *)
Lemma handleRequest_route (env : ProcessEnv) (c : TriggerClient)
    (request : NormalizedRequest) :
  exists rest,
    Route env c request rest
    /\ handleRequest env c request =
       bind (emit (Debug "handling request")) (fun _ => rest).
Proof.
  unfold handleRequest.
  destruct (authorized env c (header request "x-trigger-api-key")) eqn:Ha;
    simpl.
  2:{ eexists. split; [now apply route_unauthorized|reflexivity]. }
  destruct (String.eqb (method request) "GET") eqn:Hg.
  { apply String.eqb_eq in Hg.
    eexists. split; [now apply route_get|reflexivity]. }
  apply String.eqb_neq in Hg.
  destruct (String.eqb (method request) "POST") eqn:Hp.
  2:{ apply String.eqb_neq in Hp.
      eexists. split; [apply route_not_allowed; auto|reflexivity]. }
  apply String.eqb_eq in Hp.
  unfold handle_post, action_is.
  destruct (header request "x-trigger-action") as [a|] eqn:Hact; simpl.
  2:{ eexists. split; [apply route_not_allowed; auto|reflexivity].
      right. intros a H. congruence. }
  destruct (String.eqb a "INITIALIZE") eqn:E1.
  { apply String.eqb_eq in E1. subst a.
    eexists. split; [now apply route_initialize|reflexivity]. }
  destruct (String.eqb a "INITIALIZE_TRIGGER") eqn:E2.
  { apply String.eqb_eq in E2. subst a.
    eexists. split; [now apply route_initialize_trigger|reflexivity]. }
  destruct (String.eqb a "EXECUTE_JOB") eqn:E3.
  { apply String.eqb_eq in E3. subst a.
    eexists. split; [now apply route_execute_job|reflexivity]. }
  destruct (String.eqb a "PREPROCESS_RUN") eqn:E4.
  { apply String.eqb_eq in E4. subst a.
    eexists. split; [now apply route_preprocess_run|reflexivity]. }
  destruct (String.eqb a "DELIVER_HTTP_SOURCE_REQUEST") eqn:E5.
  { apply String.eqb_eq in E5. subst a.
    eexists. split; [now apply route_deliver|reflexivity]. }
  eexists. split; [apply route_not_allowed; auto|reflexivity].
  right. intros a' H. assert (a' = a) by congruence. subst a'.
  apply String.eqb_neq in E1, E2, E3, E4, E5.
  simpl. intuition.
Qed.

Lemma endpoint_data_reads (c : TriggerClient) :
  outcome (endpoint_data c) =
  Returns
    (JObject
       [("jobs", JArray (map toJSON (Rec.values (registeredJobs c))));
        ("sources", JArray (map encode_source (Rec.values (registeredSources c))));
        ("dynamicTriggers",
         JArray (map (fun t =>
                        JObject
                          [("id", JString (dt_id t));
                           ("jobs",
                            JArray (map encode_ref
                                      (or_else
                                         (Rec.get (jobMetadataByDynamicTriggers c)
                                            (dt_id t)) [])))])
                     (Rec.values (registeredDynamicTriggers c))));
        ("dynamicSchedules",
         JArray (map (fun e =>
                        JObject [("id", JString (fst e));
                                 ("jobs", JArray (map encode_ref (snd e)))])
                     (Rec.entries (registeredSchedules c))))])
  /\ forall ev, In ev (trace (endpoint_data c)) -> is_call ev = false.
Proof.
  unfold endpoint_data.
  destruct (mapM_reads
              (fun t =>
                 bind (lookup JobMetadataByDynamicTriggers
                         (jobMetadataByDynamicTriggers c) (dt_id t))
                      (fun refs =>
                         ret (JObject
                                [("id", JString (dt_id t));
                                 ("jobs",
                                  JArray (map encode_ref (or_else refs [])))])))
              (fun t =>
                 JObject
                   [("id", JString (dt_id t));
                    ("jobs",
                     JArray (map encode_ref
                               (or_else
                                  (Rec.get (jobMetadataByDynamicTriggers c)
                                     (dt_id t)) [])))])
              (Rec.values (registeredDynamicTriggers c))) as [Ho Ht].
  { reflexivity. }
  { intros x ev H. simpl in H. destruct H as [<-|[]]. reflexivity. }
  unfold values_of, entries_of. split.
  - repeat (rewrite outcome_bind; cbn [outcome]). rewrite Ho. reflexivity.
  - intros ev H.
    repeat (apply in_trace_bind in H; cbn [trace outcome In] in H;
            destruct H as [[<-|[]]|[? [E H]]];
            [reflexivity|injection E as <-]).
    apply in_trace_bind in H. destruct H as [H|[? [_ H]]]; [now apply Ht|].
    repeat (apply in_trace_bind in H; cbn [trace outcome In] in H;
            destruct H as [[<-|[]]|[? [E H]]];
            [reflexivity|injection E as <-]).
    destruct H.
Qed.

Ltac settle :=
  repeat match goal with
         | H : Returns _ = Returns _ |- _ => injection H as <-
         | H : Throws _ = Returns _ |- _ => discriminate H
         | H : Call _ = Call _ |- _ => injection H as <-
         | H : _ = Call _ |- _ => discriminate H
         | H : False |- _ => destruct H
         | H : _ \/ _ |- _ => destruct H
         | H : In _ (_ ++ _) |- _ => apply in_app_or in H
         end.

Ltac by_cases := open_monad; repeat (break_match; cbn in *; settle); settle.

Lemma handle_get_answers (c : TriggerClient) (request : NormalizedRequest) :
  (exists resp,
     outcome (handle_get c request) = Returns resp
     /\ (status resp = 200%Z \/ status resp = 404%Z))
  /\ forall ev, In ev (trace (handle_get c request)) -> is_call ev = false.
Proof.
  destruct (endpoint_data_reads c) as [Ho Ht].
  unfold handle_get.
  destruct (action_is request "PING").
  { split; [eexists; split; [reflexivity|now left]|intros ev []]. }
  destruct (truthy (header request "x-trigger-job-id")).
  - unfold bind, lookup, ret, job_not_found. cbn.
    destruct (Rec.get (registeredJobs c) _); cbn.
    + split; [eexists; split; [reflexivity|now left]|].
      intros ev [<-|[]]. reflexivity.
    + split; [eexists; split; [reflexivity|now right]|].
      intros ev [<-|[]]. reflexivity.
  - split.
    + rewrite outcome_bind, Ho. eexists. split; [reflexivity|now left].
    + intros ev H. apply in_trace_bind in H.
      destruct H as [H|[? [_ []]]]. now apply Ht.
Qed.

Lemma initialize_trigger_status (c : TriggerClient)
    (request : NormalizedRequest) (resp : NormalizedResponse) :
  outcome (initialize_trigger c request) = Returns resp ->
  In (status resp) [200; 400; 404]%Z.
Proof. unfold initialize_trigger. intros H. by_cases; cbn; auto. Qed.



Lemma execute_job_status (c : TriggerClient)
    (request : NormalizedRequest) (resp : NormalizedResponse) :
  outcome (execute_job c request) = Returns resp ->
  In (status resp) [200; 400; 404; 500]%Z.
Proof.
  unfold execute_job, job_not_found. intros H. by_cases; cbn; auto.
Qed.


Lemma preprocess_run_status (c : TriggerClient)
    (request : NormalizedRequest) (resp : NormalizedResponse) :
  outcome (preprocess_run c request) = Returns resp ->
  In (status resp) [200; 400; 404]%Z.
Proof.
  unfold preprocess_run, preprocessRun, job_not_found. intros H.
  by_cases; cbn; auto.
Qed.


Lemma deliver_status (c : TriggerClient)
    (request : NormalizedRequest) (resp : NormalizedResponse) :
  outcome (deliver_http_source_request c request) = Returns resp ->
  In (status resp) [200; 400]%Z.
Proof.
  unfold deliver_http_source_request, handleHttpSourceRequest. intros H.
  by_cases; cbn; auto.
Qed.


(** What each branch can answer and which outside code it can call. *)
Lemma route_answers (env : ProcessEnv) (c : TriggerClient)
    (request : NormalizedRequest) (rest : M NormalizedResponse)
    (resp : NormalizedResponse) :
  Route env c request rest ->
  outcome rest = Returns resp ->
  In (status resp) [200; 400; 401; 404; 405; 500]%Z
  /\ (status resp = 401%Z <->
      authorized env c (header request "x-trigger-api-key") = false).
Proof.
  intros R H.
  assert (Hno : forall s : Z,
             In s [200; 400; 404; 405; 500]%Z ->
             authorized env c (header request "x-trigger-api-key") = true ->
             In s [200; 400; 401; 404; 405; 500]%Z
             /\ (s = 401%Z <->
                 authorized env c (header request "x-trigger-api-key") = false)).
  { intros s Hs Ha. split.
    - simpl in *. intuition.
    - rewrite Ha. split; [|discriminate]. intros ->. simpl in Hs.
      repeat (destruct Hs as [Hs|Hs]; [discriminate|]). destruct Hs. }
  destruct R as [Ha|Ha Hm|Ha Hm Hact|Ha Hm Hact|Ha Hm Hact|Ha Hm Hact
                |Ha Hm Hact|Ha Hm Hact].
  - cbn in H. injection H as <-. cbn. rewrite Ha. intuition.
  - destruct (handle_get_answers c request) as [[r [Hr Hs]] _].
    rewrite Hr in H. injection H as <-. apply Hno; auto.
    simpl. intuition.
  - unfold listen in H. by_cases. apply Hno; cbn; auto.
  - apply initialize_trigger_status in H. apply Hno; auto. simpl in *. intuition.
  - apply execute_job_status in H. apply Hno; auto. simpl in *. intuition.
  - apply preprocess_run_status in H. apply Hno; auto. simpl in *. intuition.
  - apply deliver_status in H. apply Hno; auto. simpl in *. intuition.
  - cbn in H. injection H as <-. apply Hno; auto. simpl. auto 10.
Qed.


(** X1. Whatever the request is, a response of [handleRequest] carries one of
    the statuses 200, 400, 401, 404, 405 and 500. *)
Theorem handleRequest_status_codes (env : ProcessEnv) (c : TriggerClient)
    (request : NormalizedRequest) (resp : NormalizedResponse) :
  outcome (handleRequest env c request) = Returns resp ->
  In (status resp) [200; 400; 401; 404; 405; 500]%Z.
Proof.
  intros H. destruct (handleRequest_route env c request) as [rest [R E]].
  rewrite E, outcome_bind in H. cbn in H.
  exact (proj1 (route_answers R H)).
Qed.

(** X2. A response has status 401 exactly when the key check failed: no
    authorized request is answered 401, whatever the handlers answer. *)
Theorem status_401_means_unauthorized (env : ProcessEnv) (c : TriggerClient)
    (request : NormalizedRequest) (resp : NormalizedResponse) :
  outcome (handleRequest env c request) = Returns resp ->
  (status resp = 401%Z <->
   authorized env c (header request "x-trigger-api-key") = false).
Proof.
  intros H. destruct (handleRequest_route env c request) as [rest [R E]].
  rewrite E, outcome_bind in H. cbn in H.
  exact (proj2 (route_answers R H)).
Qed.


Lemma handleRequest_get (env : ProcessEnv) (c : TriggerClient)
    (request : NormalizedRequest) :
  authorized env c (header request "x-trigger-api-key") = true ->
  method request = "GET" ->
  handleRequest env c request =
  bind (emit (Debug "handling request")) (fun _ => handle_get c request).
Proof.
  intros Ha Hm. unfold handleRequest. now rewrite Ha, Hm.
Qed.

Lemma action_is_false (request : NormalizedRequest) (a : string) :
  header request "x-trigger-action" <> Some a -> action_is request a = false.
Proof.
  intros H. unfold action_is.
  destruct (strict_eq (header request "x-trigger-action") (Some a)) eqn:E; auto.
  apply strict_eq_true in E. contradiction.
Qed.

(** X4. An authorized GET with action PING is answered 200 "PONG" at once:
    no registry is read, also when a job id header is sent along. *)
Theorem ping_is_answered_pong (env : ProcessEnv) (c : TriggerClient)
    (request : NormalizedRequest) :
  authorized env c (header request "x-trigger-api-key") = true ->
  method request = "GET" ->
  header request "x-trigger-action" = Some "PING" ->
  handleRequest env c request =
  mkM [Debug "handling request"] (Returns (respond 200 (message_body "PONG"))).
Proof.
  intros Ha Hm Hact. rewrite handleRequest_get by assumption.
  unfold handle_get, action_is. rewrite Hact. reflexivity.
Qed.



(** X7. An authorized request that is neither a GET nor a POST, and an
    authorized POST whose action header is missing or names none of the five
    actions, is answered 405 "Method not allowed" without reading a registry
    or the body. *)
Theorem other_requests_are_405 (env : ProcessEnv) (c : TriggerClient)
    (request : NormalizedRequest) :
  authorized env c (header request "x-trigger-api-key") = true ->
  method request <> "GET" ->
  method request <> "POST" \/
  (forall a, header request "x-trigger-action" = Some a -> ~ In a post_actions) ->
  handleRequest env c request =
  mkM [Debug "handling request"]
      (Returns (respond 405 (message_body "Method not allowed"))).
Proof.
  intros Ha Hg H. unfold handleRequest. rewrite Ha. cbn [negb].
  rewrite (eqb_neq_false Hg).
  destruct (String.eqb (method request) "POST") eqn:Hp; [|reflexivity].
  destruct H as [H|H].
  { apply String.eqb_eq in Hp. contradiction. }
  unfold handle_post.
  rewrite !action_is_false; [reflexivity| | | | |];
    intros E; apply (H _ E); simpl; auto 10.
Qed.

Ltac enter_post Ha Hm Hact :=
  rewrite (handleRequest_authorized _ _ _ Ha Hm);
  rewrite (handle_post_action _ _ Hact); cbn [String.eqb Ascii.eqb Bool.eqb].


(** X9. An authorized EXECUTE_JOB with a valid body and a registered job
    whose run function returns [V] on the parsed payload is answered 200 with
    [completed: true], [output: V], the run id as [executionId] and no
    task. *)
Theorem completed_run_is_200 (env : ProcessEnv) (c : TriggerClient)
    (request : NormalizedRequest) (data : RunJobBody) (j : Job)
    (parsed V : any) :
  authorized env c (header request "x-trigger-api-key") = true ->
  method request = "POST" ->
  header request "x-trigger-action" = Some "EXECUTE_JOB" ->
  RunJobBodySchema (body request) = Some data ->
  Rec.get (registeredJobs c) (ref_id (job data)) = Some j ->
  parsePayload (trigger_event (trigger j))
    (nullish_coalesce (payload (event data)) (JObject [])) = Returns parsed ->
  run j parsed (job_io data j) (createRunContext data) = Returns V ->
  outcome (handleRequest env c request) =
  Returns (respond 200
             (JObject [("completed", JBool true);
                       ("output", V);
                       ("executionId", JString (run_id (run_ data)));
                       ("task", undefined)])).
Proof.
  intros Ha Hm Hact Hbody Hjob Hparse Hrun. enter_post Ha Hm Hact.
  unfold execute_job, executeJob, run_job. open_monad.
  rewrite Hbody. cbn. rewrite Hjob. cbn. rewrite Hparse. cbn.
  rewrite Hrun. reflexivity.
Qed.

(** X10. An authorized EXECUTE_JOB with a valid body and a registered job is
    always answered, with 200 or 500; it is answered 500 exactly when payload
    parsing or the run function threw something else than the suspension
    signal. *)
Theorem status_500_means_failed_run (env : ProcessEnv) (c : TriggerClient)
    (request : NormalizedRequest) (data : RunJobBody) (j : Job) :
  authorized env c (header request "x-trigger-api-key") = true ->
  method request = "POST" ->
  header request "x-trigger-action" = Some "EXECUTE_JOB" ->
  RunJobBodySchema (body request) = Some data ->
  Rec.get (registeredJobs c) (ref_id (job data)) = Some j ->
  exists resp,
    outcome (handleRequest env c request) = Returns resp
    /\ (status resp = 200%Z \/ status resp = 500%Z)
    /\ (status resp = 500%Z <->
        exists e,
          outcome (run_job data j (job_io data j) (createRunContext data))
            = Throws e
          /\ forall t, e <> ResumeWithTask t).
Proof.
  intros Ha Hm Hact Hbody Hjob. enter_post Ha Hm Hact.
  unfold execute_job, executeJob, classify. open_monad.
  rewrite Hbody. cbn. rewrite Hjob. cbn.
  destruct (outcome (run_job data j (job_io data j) (createRunContext data)))
    as [v|e] eqn:E; cbn.
  - eexists. split; [reflexivity|]. cbn. split; [now left|].
    split; [discriminate|]. intros [e [H _]]. discriminate.
  - destruct e as [t|m|v].
    + cbn. eexists. split; [reflexivity|]. cbn. split; [now left|].
      split; [discriminate|].
      intros [e' [H Hn]]. injection H as <-. now elim (Hn t).
    + cbn. destruct (ErrorWithStackSchema _); cbn;
        [|destruct (ErrorWithMessage _); cbn];
        (eexists; split; [reflexivity|]; cbn; split; [now right|];
         split; [intros _|reflexivity];
         eexists; split; [reflexivity|intros t; discriminate]).
    + cbn. destruct (ErrorWithStackSchema _); cbn;
        [|destruct (ErrorWithMessage _); cbn];
        (eexists; split; [reflexivity|]; cbn; split; [now right|];
         split; [intros _|reflexivity];
         eexists; split; [reflexivity|intros t; discriminate]).
Qed.

(** X11. Whatever an authorized PREPROCESS_RUN with a valid body and a
    registered job returns is 200 with [abort: false] and a list of
    elements, the empty one when the event specification has no
    [runElements]. *)
Theorem preprocess_never_aborts (env : ProcessEnv) (c : TriggerClient)
    (request : NormalizedRequest) (data : PreprocessRunBody) (j : Job)
    (resp : NormalizedResponse) :
  authorized env c (header request "x-trigger-api-key") = true ->
  method request = "POST" ->
  header request "x-trigger-action" = Some "PREPROCESS_RUN" ->
  PreprocessRunBodySchema (body request) = Some data ->
  Rec.get (registeredJobs c) (ref_id (pre_job data)) = Some j ->
  outcome (handleRequest env c request) = Returns resp ->
  exists els,
    resp = respond 200 (JObject [("abort", JBool false);
                                 ("elements", JArray els)])
    /\ (runElements (trigger_event (trigger j)) = None -> els = []).
Proof.
  intros Ha Hm Hact Hbody Hjob. enter_post Ha Hm Hact.
  unfold preprocess_run, preprocessRun. open_monad.
  rewrite Hbody. cbn. rewrite Hjob. cbn.
  destruct (parsePayload _ _) as [parsed|e]; cbn; [|discriminate].
  destruct (runElements (trigger_event (trigger j))) as [f|]; cbn.
  - destruct (f parsed) as [els|e]; cbn; [|discriminate].
    intros H. injection H as <-. eexists. split; [reflexivity|discriminate].
  - intros H. injection H as <-. eexists. split; reflexivity.
Qed.

Lemma truthy_some (d : string) : d <> "" -> truthy (Some d) = true.
Proof. intros H. cbn. now rewrite eqb_neq_false. Qed.


(** X13. A delivery with a non-empty dynamic id that names a registered
    dynamic trigger goes to the source of that trigger, with the request body
    as [rawBody]; the handler registered under the key is not looked up. What
    the source throws leaves [handleRequest]. *)
Theorem dynamic_id_routes_to_the_trigger (env : ProcessEnv) (c : TriggerClient)
    (request : NormalizedRequest) (data : HttpSourceRequestHeaders)
    (d : string) (t : DynamicTrigger) :
  authorized env c (header request "x-trigger-api-key") = true ->
  method request = "POST" ->
  header request "x-trigger-action" = Some "DELIVER_HTTP_SOURCE_REQUEST" ->
  HttpSourceRequestHeadersSchema (headers request) = Some data ->
  x_ts_dynamic_id data = Some d ->
  d <> "" ->
  Rec.get (registeredDynamicTriggers c) d = Some t ->
  outcome (handleRequest env c request) =
  match handle (dt_source t) (delivered_source data)
          (delivered_request data (body request)) with
  | Returns results => Returns (delivery_response results)
  | Throws e => Throws e
  end
  /\ forall k,
       ~ In (Lookup HttpSourceHandlers k) (trace (handleRequest env c request)).
Proof.
  intros Ha Hm Hact Hh Hd Hne Ht. enter_post Ha Hm Hact.
  unfold deliver_http_source_request, handleHttpSourceRequest. open_monad.
  rewrite Hh. cbn.
  fold (delivered_source data). fold (delivered_request data (body request)).
  rewrite Hd, truthy_some by assumption. cbn. rewrite Ht. cbn.
  destruct (handle (dt_source t) _ _) as [results|e]; cbn.
  - split; [reflexivity|]. intros k H. settle; discriminate.
  - split; [reflexivity|]. intros k H. settle; discriminate.
Qed.

(** X14. A delivery without dynamic id, or with an empty one, goes to the
    handler registered under the key; the dynamic triggers are not looked
    up. What the handler throws leaves [handleRequest]. *)
Theorem key_routes_to_the_handler (env : ProcessEnv) (c : TriggerClient)
    (request : NormalizedRequest) (data : HttpSourceRequestHeaders)
    (h : HttpSourceHandler) :
  authorized env c (header request "x-trigger-api-key") = true ->
  method request = "POST" ->
  header request "x-trigger-action" = Some "DELIVER_HTTP_SOURCE_REQUEST" ->
  HttpSourceRequestHeadersSchema (headers request) = Some data ->
  x_ts_dynamic_id data = None \/ x_ts_dynamic_id data = Some "" ->
  Rec.get (registeredHttpSourceHandlers c) (x_ts_key data) = Some h ->
  outcome (handleRequest env c request) =
  match h (delivered_source data) (delivered_request data (body request)) with
  | Returns results => Returns (delivery_response results)
  | Throws e => Throws e
  end
  /\ forall k,
       ~ In (Lookup DynamicTriggers k) (trace (handleRequest env c request)).
Proof.
  intros Ha Hm Hact Hh Hd Hget. enter_post Ha Hm Hact.
  unfold deliver_http_source_request, handleHttpSourceRequest. open_monad.
  rewrite Hh. cbn.
  fold (delivered_source data). fold (delivered_request data (body request)).
  assert (E : truthy (x_ts_dynamic_id data) = false)
    by (destruct Hd as [Hd|Hd]; rewrite Hd; reflexivity).
  rewrite E. cbn. rewrite Hget. cbn.
  destruct (h _ _) as [results|e]; cbn.
  - split; [reflexivity|]. intros k H. settle; discriminate.
  - split; [reflexivity|]. intros k H. settle; discriminate.
Qed.


End Branches.

(** ** Configuration *)

Section Configuration.

Context {internal : Internal} {collaborators : Collaborators}.

(** X16. [buildEndpointUrl] uses a non-empty TRIGGER_ENDPOINT as it is,
    followed by the path, whatever the host variables are. Otherwise the first
    host variable that is set decides alone, in the order TRIGGER_HOST, HOST,
    HOSTNAME, NOW_URL, VERCEL_URL: a non-empty one gives "https://" + host +
    path, an empty one fails although a later variable may name a host. *)
Theorem endpoint_resolution_order (env : ProcessEnv) (p : option string) :
  (forall e, TRIGGER_ENDPOINT env = Some e -> e <> "" ->
     buildEndpointUrl env p = Returns (e ++ or_else p "")%string)
  /\ (TRIGGER_ENDPOINT env = None \/ TRIGGER_ENDPOINT env = Some "" ->
      buildEndpointUrl env p =
      match first_set (host_variables env) with
      | Some h =>
          if String.eqb h "" then Throws endpoint_error
          else Returns ("https://" ++ h ++ or_else p "")%string
      | None => Throws endpoint_error
      end).
Proof.
  unfold buildEndpointUrl, host_variables. split.
  - intros e He Hne. rewrite He. cbn.
    apply String.eqb_neq in Hne. now rewrite Hne.
  - intros He.
    assert (E : truthy (TRIGGER_ENDPOINT env) = false)
      by (destruct He as [-> | ->]; reflexivity).
    rewrite E.
    destruct (TRIGGER_HOST env) as [h|], (HOST env) as [h1|],
      (HOSTNAME env) as [h2|], (NOW_URL env) as [h3|],
      (VERCEL_URL env) as [h4|]; cbn;
      repeat match goal with
             | |- context [String.eqb ?x ""] => destruct (String.eqb x "")
             end; reflexivity.
Qed.

(** X17. With an [endpoint] option the constructor never fails and never
    reads the environment: the client starts with empty registries, and
    [listen] registers that endpoint, also an empty one, under the name of
    the client. *)
Theorem explicit_endpoint_is_used_as_given (env : ProcessEnv) (name : string)
    (options : TriggerClientOptions) (e : string) :
  option_endpoint options = Some e ->
  exists c,
    constructor env name options = Returns c
    /\ endpoint c = e
    /\ client_name c = name
    /\ registeredJobs c = []
    /\ registeredSources c = []
    /\ registeredHttpSourceHandlers c = []
    /\ registeredDynamicTriggers c = []
    /\ jobMetadataByDynamicTriggers c = []
    /\ registeredSchedules c = []
    /\ outcome (listen c) = registerEndpoint e name.
Proof.
  intros H. unfold constructor. rewrite H. eexists.
  repeat match goal with |- _ /\ _ => split end; reflexivity.
Qed.

(** X18. A client that the constructor returned answers an authorized
    listing with four empty lists. *)
Theorem new_client_lists_nothing (env : ProcessEnv) (name : string)
    (options : TriggerClientOptions) (c : TriggerClient)
    (request : NormalizedRequest) :
  constructor env name options = Returns c ->
  authorized env c (header request "x-trigger-api-key") = true ->
  method request = "GET" ->
  header request "x-trigger-action" <> Some "PING" ->
  header request "x-trigger-job-id" = None ->
  handleRequest env c request =
  mkM [Debug "handling request"; Enumerate Jobs; Enumerate Sources;
       Enumerate DynamicTriggers; Enumerate Schedules]
      (Returns (respond 200
                  (JObject [("jobs", JArray []);
                            ("sources", JArray []);
                            ("dynamicTriggers", JArray []);
                            ("dynamicSchedules", JArray [])]))).
Proof.
  intros Hc Ha Hm Hact Hid.
  unfold handleRequest. rewrite Ha, Hm. cbn [negb String.eqb Ascii.eqb Bool.eqb].
  unfold handle_get, action_is.
  assert (E : strict_eq (header request "x-trigger-action") (Some "PING") = false).
  { destruct (strict_eq _ _) eqn:E; auto. apply strict_eq_true in E.
    contradiction. }
  rewrite E, Hid. cbn [truthy].
  unfold constructor in Hc.
  destruct (match option_endpoint options with
            | Some e => Returns e
            | None => buildEndpointUrl env (path options)
            end); [|discriminate].
  injection Hc as <-. reflexivity.
Qed.

(** X19. A key given in the options hides TRIGGER_API_KEY: only that key is
    accepted, and an empty one accepts no request at all. *)
Theorem explicit_key_hides_environment_key (env : ProcessEnv)
    (c : TriggerClient) (s : string) (k : option string) :
  option_apiKey (options c) = Some s ->
  (authorized env c k = true <-> s <> "" /\ k = Some s).
Proof.
  intros H. rewrite authorized_spec. unfold configured_key. rewrite H. cbn.
  split.
  - intros [s' [E [Hne ->]]]. injection E as <-. auto.
  - intros [Hne ->]. exists s. auto.
Qed.

(** X20. A request that carries the key reported by [apiKey()] is authorized
    unless that key is missing or empty. *)
Theorem own_key_is_accepted (env : ProcessEnv) (c : TriggerClient) :
  authorized env c (apiKey env c) = true <->
  exists s, apiKey env c = Some s /\ s <> "".
Proof.
  rewrite authorized_spec. unfold apiKey, configured_key. split.
  - intros [s [E [Hne _]]]. eauto.
  - intros [s [E Hne]]. eauto.
Qed.

End Configuration.

(** ** Registrations and the requests that follow them *)

Section Registered.

Context {internal : Internal} {collaborators : Collaborators}.

Ltac open_monad :=
  unfold bind, emit, ret, safeParse, lookup, call, try_catch in *; cbn in *.

Ltac enter_post Ha Hm Hact :=
  rewrite (handleRequest_authorized _ _ _ Ha Hm);
  rewrite (handle_post_action _ _ Hact); cbn [String.eqb Ascii.eqb Bool.eqb].

(** [attach] changes the job registry and, through the trigger, the
    references of a dynamic trigger; nothing else. *)
Lemma attach_frame (c : TriggerClient) (j : Job) :
  options (attach c j) = options c
  /\ registeredDynamicTriggers (attach c j) = registeredDynamicTriggers c
  /\ registeredSchedules (attach c j) = registeredSchedules c
  /\ client_name (attach c j) = client_name c
  /\ endpoint (attach c j) = endpoint c.
Proof.
  unfold attach. destruct (enabled j); cbn; [|auto 10].
  destruct (trigger j); cbn; auto 10.
Qed.

Lemma authorized_options (env : ProcessEnv) (c c' : TriggerClient)
    (k : option string) :
  options c' = options c -> authorized env c' k = authorized env c k.
Proof. intros H. unfold authorized. now rewrite H. Qed.



(** X23. After [attach] of an enabled job with a non-empty id, an authorized
    GET with that id in [x-trigger-job-id] is answered 200 with the
    serialization of that job, whatever was registered under the id before;
    [attach] of a disabled job leaves the client as it was. *)
Theorem attached_job_is_fetched (env : ProcessEnv) (c : TriggerClient)
    (j : Job) (request : NormalizedRequest) :
  (enabled j = true ->
   id j <> "" ->
   authorized env c (header request "x-trigger-api-key") = true ->
   method request = "GET" ->
   header request "x-trigger-action" <> Some "PING" ->
   header request "x-trigger-job-id" = Some (id j) ->
   outcome (handleRequest env (attach c j) request)
   = Returns (respond 200 (toJSON j)))
  /\ (enabled j = false -> attach c j = c).
Proof.
  split.
  - intros He Hne Ha Hm Hact Hid.
    assert (Hj : Rec.get (registeredJobs (attach c j)) (id j) = Some j).
    { unfold attach. rewrite He. cbn.
      destruct (trigger j); cbn; apply get_set_same. }
    rewrite <- (@authorized_options env c (attach c j) _
                  (proj1 (attach_frame c j))) in Ha.
    unfold handleRequest. rewrite Ha, Hm.
    cbn [negb String.eqb Ascii.eqb Bool.eqb].
    unfold handle_get, action_is.
    destruct (strict_eq (header request "x-trigger-action") (Some "PING"))
      eqn:E.
    { apply strict_eq_true in E. contradiction. }
    rewrite Hid. cbn [truthy]. apply String.eqb_neq in Hne. rewrite Hne.
    open_monad. rewrite Hj. reflexivity.
  - intros He. unfold attach. now rewrite He.
Qed.

(** X24. After [attachSource], a delivery for its key without dynamic id is
    handled by the source of that call, whatever handler the key had
    before. *)
Theorem attached_source_receives_deliveries (env : ProcessEnv)
    (c : TriggerClient) (o : AttachSourceOptions)
    (request : NormalizedRequest) (data : HttpSourceRequestHeaders) :
  authorized env c (header request "x-trigger-api-key") = true ->
  method request = "POST" ->
  header request "x-trigger-action" = Some "DELIVER_HTTP_SOURCE_REQUEST" ->
  HttpSourceRequestHeadersSchema (headers request) = Some data ->
  x_ts_dynamic_id data = None \/ x_ts_dynamic_id data = Some "" ->
  x_ts_key data = key o ->
  outcome (handleRequest env (attachSource c o) request) =
  match handle (source o) (delivered_source data)
          (delivered_request data (body request)) with
  | Returns results => Returns (delivery_response results)
  | Throws e => Throws e
  end.
Proof.
  intros Ha Hm Hact Hh Hd Hk.
  assert (Ha' : authorized env (attachSource c o)
                  (header request "x-trigger-api-key") = true)
    by (rewrite (@authorized_options env c (attachSource c o) _ eq_refl);
        exact Ha).
  enter_post Ha' Hm Hact.
  unfold deliver_http_source_request, handleHttpSourceRequest.
  unfold bind, emit, ret, safeParse, lookup, call. cbn [outcome trace].
  rewrite Hh. cbn [outcome trace hts_dynamicId hts_key].
  assert (E : truthy (x_ts_dynamic_id data) = false)
    by (destruct Hd as [Hd|Hd]; rewrite Hd; reflexivity).
  rewrite E. cbn [outcome trace].
  fold (delivered_source data). fold (delivered_request data (body request)).
  rewrite attachSource_registeredHttpSourceHandlers, Hk, get_set_same.
  cbn [outcome trace].
  destruct (handle (source o) _ _); reflexivity.
Qed.



(** X27. After [attachDynamicTrigger], the trigger answers the requests that
    name its id: INITIALIZE_TRIGGER is answered 200 with what
    [registeredTriggerForParams] gives for the params of the body, and a
    delivery with its id as dynamic id is handled by its source. A failure
    of either leaves [handleRequest]. *)
Theorem attached_trigger_is_reachable (env : ProcessEnv) (c : TriggerClient)
    (t : DynamicTrigger) (request : NormalizedRequest) :
  authorized env c (header request "x-trigger-api-key") = true ->
  method request = "POST" ->
  let r := handleRequest env (attachDynamicTrigger c t) request in
  (forall data,
     header request "x-trigger-action" = Some "INITIALIZE_TRIGGER" ->
     InitializeTriggerBodySchema (body request) = Some data ->
     init_id data = dt_id t ->
     outcome r =
     match registeredTriggerForParams t (init_params data) with
     | Returns registered => Returns (respond 200 registered)
     | Throws e => Throws e
     end)
  /\ (forall data,
     header request "x-trigger-action" = Some "DELIVER_HTTP_SOURCE_REQUEST" ->
     HttpSourceRequestHeadersSchema (headers request) = Some data ->
     x_ts_dynamic_id data = Some (dt_id t) ->
     dt_id t <> "" ->
     outcome r =
     match handle (dt_source t) (delivered_source data)
             (delivered_request data (body request)) with
     | Returns results => Returns (delivery_response results)
     | Throws e => Throws e
     end).
Proof.
  intros Ha Hm r. subst r.
  assert (Ha' : authorized env (attachDynamicTrigger c t)
                  (header request "x-trigger-api-key") = true)
    by (rewrite (@authorized_options env c (attachDynamicTrigger c t) _
                   eq_refl);
        exact Ha).
  assert (Ht : forall k, k = dt_id t ->
             Rec.get (registeredDynamicTriggers (attachDynamicTrigger c t)) k
             = Some t).
  { intros k ->. cbn. apply get_set_same. }
  split.
  - intros data Hact Hbody Hid. enter_post Ha' Hm Hact.
    unfold initialize_trigger.
    unfold bind, emit, ret, safeParse, lookup, call. cbn [outcome trace].
    rewrite Hbody. cbn [outcome trace]. rewrite (Ht _ Hid). cbn [outcome trace].
    destruct (registeredTriggerForParams t (init_params data)); reflexivity.
  - intros data Hact Hh Hd Hne. enter_post Ha' Hm Hact.
    unfold deliver_http_source_request, handleHttpSourceRequest.
    unfold bind, emit, ret, safeParse, lookup, call. cbn [outcome trace].
    rewrite Hh. cbn [outcome trace hts_dynamicId hts_key].
    fold (delivered_source data). fold (delivered_request data (body request)).
    rewrite Hd. cbn [truthy or_else]. apply String.eqb_neq in Hne.
    rewrite Hne. cbn [negb outcome trace]. rewrite (Ht _ eq_refl).
    cbn [outcome trace].
    destruct (handle (dt_source t) _ _); reflexivity.
Qed.

End Registered.

(** ** The further properties on the sample configurations *)

Section FurtherSamples.

Import Sample.

Local Existing Instance schemas.
Local Existing Instance backend.

Lemma handleRequest_status_codes_sample :
  In (status (respond 500 (encode_error
                             (WithStack
                                {| es_message := "payload is not an order";
                                   es_stack := "Error: payload is not an order" |}))))
     [200; 400; 401; 404; 405; 500]%Z.
Proof.
  apply (handleRequest_status_codes no_env client
           (post "tr_dev_secret" "EXECUTE_JOB" (run_of "picky"))).
  reflexivity.
Defined.

Lemma status_401_means_unauthorized_sample :
  status (respond 401 (message_body "Unauthorized")) = 401%Z <->
  authorized no_env client
    (header (post "guess" "INITIALIZE" undefined) "x-trigger-api-key") = false.
Proof.
  apply (status_401_means_unauthorized no_env client
           (post "guess" "INITIALIZE" undefined)).
  reflexivity.
Defined.


Lemma ping_is_answered_pong_sample :
  handleRequest no_env client
    (a_get [("x-trigger-action", "PING"); ("x-trigger-job-id", "wait")]) =
  mkM [Debug "handling request"] (Returns (respond 200 (message_body "PONG"))).
Proof.
  apply ping_is_answered_pong; reflexivity.
Defined.



Lemma other_requests_are_405_sample :
  handleRequest no_env client
    {| headers := [("x-trigger-api-key", "tr_dev_secret")];
       method := "PUT";
       body := run_of "wait" |} =
  mkM [Debug "handling request"]
      (Returns (respond 405 (message_body "Method not allowed"))).
Proof.
  apply other_requests_are_405; [reflexivity|discriminate|].
  left. discriminate.
Defined.


Lemma completed_run_is_200_sample :
  outcome (handleRequest no_env busy_client
             (post "tr_dev_secret" "EXECUTE_JOB" (run_of "greet"))) =
  Returns (respond 200
             (JObject [("completed", JBool true);
                       ("output", JString "done");
                       ("executionId", JString "run_1");
                       ("task", undefined)])).
Proof.
  refine (completed_run_is_200 no_env busy_client
            (post "tr_dev_secret" "EXECUTE_JOB" (run_of "greet"))
            (data := a_run "greet" an_order) (j := done_job)
            (parsed := an_order) (V := JString "done")
            _ _ _ _ _ _ _); reflexivity.
Defined.

Lemma status_500_means_failed_run_sample :
  exists resp,
    outcome (handleRequest no_env client
               (post "tr_dev_secret" "EXECUTE_JOB" (run_of "picky")))
    = Returns resp
    /\ (status resp = 200%Z \/ status resp = 500%Z)
    /\ (status resp = 500%Z <->
        exists e,
          outcome (run_job (a_run "picky" an_order) picky_job
                     (job_io (a_run "picky" an_order) picky_job)
                     (createRunContext (a_run "picky" an_order)))
            = Throws e
          /\ forall t, e <> ResumeWithTask t).
Proof.
  apply status_500_means_failed_run; reflexivity.
Defined.

Lemma preprocess_never_aborts_sample :
  exists els,
    respond 200 (JObject [("abort", JBool false); ("elements", JArray [])])
    = respond 200 (JObject [("abort", JBool false); ("elements", JArray els)])
    /\ (runElements (trigger_event (trigger waiting_job)) = None -> els = []).
Proof.
  refine (preprocess_never_aborts no_env client
            (post "tr_dev_secret" "PREPROCESS_RUN" (run_of "wait"))
            (data := a_preprocess "wait" an_order) (j := waiting_job)
            _ _ _ _ _ _); reflexivity.
Defined.


Lemma dynamic_id_routes_to_the_trigger_sample :
  outcome (handleRequest no_env (attachDynamicTrigger client a_trigger)
             a_dynamic_delivery)
  = Returns acknowledgement.
Proof.
  refine (proj1 (dynamic_id_routes_to_the_trigger no_env
                   (attachDynamicTrigger client a_trigger) a_dynamic_delivery
                   (data := {| x_ts_http_url := "";
                               x_ts_http_method := "POST";
                               x_ts_http_headers := JObject [];
                               x_ts_key := "github";
                               x_ts_dynamic_id := Some "on-issue";
                               x_ts_secret := "s3cr3t";
                               x_ts_params := undefined;
                               x_ts_data := undefined |})
                   (d := "on-issue") (t := a_trigger)
                   eq_refl eq_refl eq_refl eq_refl eq_refl _ eq_refl)).
  discriminate.
Defined.

Lemma key_routes_to_the_handler_sample :
  outcome (handleRequest no_env
             (attachSource client (a_source "github" "push" webhooks_v2 undefined))
             a_delivery)
  = Returns (respond 200
               (JObject [("events", JArray [JString "push"]);
                         ("response", encode_response ok_response)])).
Proof.
  exact (proj1 (key_routes_to_the_handler no_env
                  (attachSource client
                     (a_source "github" "push" webhooks_v2 undefined))
                  a_delivery
                  (data := {| x_ts_http_url := "";
                              x_ts_http_method := "POST";
                              x_ts_http_headers := JObject [];
                              x_ts_key := "github";
                              x_ts_dynamic_id := None;
                              x_ts_secret := "s3cr3t";
                              x_ts_params := undefined;
                              x_ts_data := undefined |})
                  (h := handle webhooks_v2)
                  eq_refl eq_refl eq_refl eq_refl (or_introl eq_refl) eq_refl)).
Defined.


(** An empty TRIGGER_HOST hides the host named by HOST. *)
Lemma endpoint_resolution_order_sample :
  buildEndpointUrl empty_host_env (Some "/api/trigger") = Throws endpoint_error.
Proof.
  exact (proj2 (endpoint_resolution_order empty_host_env (Some "/api/trigger"))
           (or_introl eq_refl)).
Defined.

Lemma explicit_endpoint_is_used_as_given_sample :
  exists c,
    constructor no_env "shop" keyed_options = Returns c
    /\ endpoint c = "https://app.example/api/trigger"
    /\ client_name c = "shop"
    /\ registeredJobs c = []
    /\ registeredSources c = []
    /\ registeredHttpSourceHandlers c = []
    /\ registeredDynamicTriggers c = []
    /\ jobMetadataByDynamicTriggers c = []
    /\ registeredSchedules c = []
    /\ outcome (listen c)
       = registerEndpoint "https://app.example/api/trigger" "shop".
Proof.
  apply explicit_endpoint_is_used_as_given. reflexivity.
Defined.

Lemma new_client_lists_nothing_sample :
  handleRequest no_env (a_client []) (a_get []) =
  mkM [Debug "handling request"; Enumerate Jobs; Enumerate Sources;
       Enumerate DynamicTriggers; Enumerate Schedules]
      (Returns (respond 200
                  (JObject [("jobs", JArray []);
                            ("sources", JArray []);
                            ("dynamicTriggers", JArray []);
                            ("dynamicSchedules", JArray [])]))).
Proof.
  apply (@new_client_lists_nothing schemas backend no_env "shop" keyed_options
           (a_client []) (a_get []));
    try reflexivity; discriminate.
Defined.

(** An empty key in the options: the key of the environment is refused. *)
Lemma explicit_key_hides_environment_key_sample :
  let env := {| TRIGGER_API_KEY := Some "tr_env_secret";
                TRIGGER_ENDPOINT := None; TRIGGER_HOST := None; HOST := None;
                HOSTNAME := None; NOW_URL := None; VERCEL_URL := None |} in
  let c := {| options := {| option_apiKey := Some ""; apiUrl := None;
                            option_endpoint := Some "https://app.example";
                            path := None; logLevel := None |};
              registeredJobs := []; registeredSources := [];
              registeredHttpSourceHandlers := [];
              registeredDynamicTriggers := [];
              jobMetadataByDynamicTriggers := []; registeredSchedules := [];
              client_name := "shop"; endpoint := "https://app.example" |} in
  authorized env c (Some "tr_env_secret") = true <->
  "" <> "" /\ Some "tr_env_secret" = Some "".
Proof.
  intros env c. apply explicit_key_hides_environment_key. reflexivity.
Defined.

Lemma attached_job_is_fetched_sample :
  outcome (handleRequest no_env (attach client done_job)
             (a_get [("x-trigger-job-id", "greet")]))
  = Returns (respond 200 (toJSON done_job)).
Proof.
  apply (proj1 (attached_job_is_fetched no_env client done_job
                  (a_get [("x-trigger-job-id", "greet")])));
    try reflexivity; discriminate.
Defined.

Lemma attached_source_receives_deliveries_sample :
  outcome (handleRequest no_env
             (attachSource client (a_source "github" "push" webhooks_v2 undefined))
             a_delivery)
  = match handle webhooks_v2
            (delivered_source
               {| x_ts_http_url := ""; x_ts_http_method := "POST";
                  x_ts_http_headers := JObject []; x_ts_key := "github";
                  x_ts_dynamic_id := None; x_ts_secret := "s3cr3t";
                  x_ts_params := undefined; x_ts_data := undefined |})
            (delivered_request
               {| x_ts_http_url := ""; x_ts_http_method := "POST";
                  x_ts_http_headers := JObject []; x_ts_key := "github";
                  x_ts_dynamic_id := None; x_ts_secret := "s3cr3t";
                  x_ts_params := undefined; x_ts_data := undefined |}
               (body a_delivery)) with
    | Returns results => Returns (delivery_response results)
    | Throws e => Throws e
    end.
Proof.
  apply (attached_source_receives_deliveries no_env client
           (a_source "github" "push" webhooks_v2 undefined) a_delivery);
    try reflexivity. now left.
Defined.


Lemma attached_trigger_is_reachable_sample :
  outcome (handleRequest no_env (attachDynamicTrigger client a_trigger)
             (post "tr_dev_secret" "INITIALIZE_TRIGGER" a_trigger_body))
  = Returns (respond 200 (JObject [("repo", JString "acme/shop")])).
Proof.
  exact (proj1 (attached_trigger_is_reachable no_env client a_trigger
                  (post "tr_dev_secret" "INITIALIZE_TRIGGER" a_trigger_body)
                  eq_refl eq_refl)
           {| init_id := "on-issue";
              init_params := JObject [("repo", JString "acme/shop")] |}
           eq_refl eq_refl eq_refl).
Defined.

End FurtherSamples.
